(** * OAuth 2.0 authorization endpoint (package oauth2, authorizations.go)

    A shallow embedding of [CreateGrant], [authCodeGrant1] and
    [implicitGrant], of the part of Go's net/url they go through, and of
    the grant store the token endpoint relies on.

    Conventions.
    - Go strings are byte strings: [string] with [ascii] as the byte.
    - A Go [(value, error)] result is a [result]: the handlers never look
      at the value when the error is non-nil.
    - The [Provider] is an interface: every method is a transition of an
      abstract store, and every call is appended to a log, so that
      "the handler does not call GenToken" is a statement about the log.
    - What a handler writes to its [http.ResponseWriter] is its
      [Response]: the arguments of the one [render.HTML] or
      [http.Redirect] call it makes. *)

From Stdlib Require Import ZArith NArith Ascii String List Bool Lia.
From stdpp Require Import base option list gmap strings.

Local Open Scope string_scope.
Local Open Scope Z_scope.

(** Go's [error]: the message. *)
Definition error := string.

Inductive result (A : Type) : Type :=
| Ok (a : A)
| Err (e : error).
Arguments Ok {A} a.
Arguments Err {A} e.

(** * net/url

    The functions of Go's net/url that the handlers go through, as the
    library stood when the package was written (Go 1.4): escaping, query
    values, [URL.String] and [Parse]. *)
Module url.

(** ** Escaping *)

Inductive encoding := encodePath | encodeUserPassword | encodeQueryComponent | encodeFragment.

Definition between (lo hi c : ascii) : bool :=
  (N_of_ascii lo <=? N_of_ascii c)%N && (N_of_ascii c <=? N_of_ascii hi)%N.
Arguments between (lo hi c)%_char_scope.

Definition isByte (x c : ascii) : bool := Ascii.eqb x c.
Arguments isByte (x c)%_char_scope.

Definition isAlnum (c : ascii) : bool :=
  between "A" "Z" c || between "a" "z" c || between "0" "9" c.

Definition isMark (c : ascii) : bool :=
  isByte "-" c || isByte "_" c || isByte "." c || isByte "~" c.

Definition isReserved (c : ascii) : bool :=
  isByte "$" c || isByte "&" c || isByte "+" c || isByte "," c || isByte "/" c ||
  isByte ":" c || isByte ";" c || isByte "=" c || isByte "?" c || isByte "@" c.

(** [shouldEscape]: unreserved bytes are never escaped, reserved bytes
    according to the part of the URL, everything else always. *)
Definition shouldEscape (c : ascii) (mode : encoding) : bool :=
  if isAlnum c then false
  else if isMark c then false
  else if isReserved c then
    match mode with
    | encodePath => isByte "?" c
    | encodeUserPassword => isByte "@" c || isByte "/" c || isByte ":" c
    | encodeQueryComponent => true
    | encodeFragment => false
    end
  else true.

(** ["0123456789ABCDEF"[n]] *)
Definition hexdigit (n : N) : ascii :=
  match String.get (N.to_nat n) "0123456789ABCDEF" with
  | Some c => c
  | None => "0"%char
  end.

Fixpoint escape (s : string) (mode : encoding) : string :=
  match s with
  | EmptyString => EmptyString
  | String c r =>
      if isByte " " c && match mode with encodeQueryComponent => true | _ => false end
      then String "+" (escape r mode)
      else if shouldEscape c mode
      then String "%" (String (hexdigit (N.shiftr (N_of_ascii c) 4))
                      (String (hexdigit (N.land (N_of_ascii c) 15)) (escape r mode)))
      else String c (escape r mode)
  end.

Definition ishex (c : ascii) : bool :=
  between "0" "9" c || between "a" "f" c || between "A" "F" c.

Definition unhex (c : ascii) : N :=
  (if between "0" "9" c then N_of_ascii c - N_of_ascii "0"
   else if between "a" "f" c then N_of_ascii c - N_of_ascii "a" + 10
   else if between "A" "F" c then N_of_ascii c - N_of_ascii "A" + 10
   else 0)%N.

(** [unescape]: [None] is Go's [EscapeError] (a [%] not followed by two
    hexadecimal digits). *)
Fixpoint unescape (s : string) (mode : encoding) : option string :=
  match s with
  | EmptyString => Some EmptyString
  | String c r =>
      if isByte "%" c then
        match r with
        | String h (String l r') =>
            if ishex h && ishex l then
              match unescape r' mode with
              | Some t => Some (String (ascii_of_N (N.lor (N.shiftl (unhex h) 4) (unhex l))) t)
              | None => None
              end
            else None
        | _ => None
        end
      else
        match unescape r mode with
        | Some t =>
            if isByte "+" c && match mode with encodeQueryComponent => true | _ => false end
            then Some (String " " t)
            else Some (String c t)
        | None => None
        end
  end.

Definition QueryEscape (s : string) : string := escape s encodeQueryComponent.
Definition QueryUnescape (s : string) : option string := unescape s encodeQueryComponent.

(** ** Query values *)

(** [url.Values] is a [map[string][]string]. It is kept as an association
    list with one entry per key; the order of the entries is never
    observed ([Encode] sorts the keys). *)
Definition Values := list (string * list string).

Fixpoint lookupValues (k : string) (v : Values) : list string :=
  match v with
  | [] => []
  | (k', vs) :: r => if String.eqb k k' then vs else lookupValues k r
  end.

(** [v.Get(key)]: the first value of [key], or the empty string. *)
Definition Get (k : string) (v : Values) : string :=
  match lookupValues k v with
  | x :: _ => x
  | [] => ""
  end.

(** [v[key] = vs] *)
Fixpoint assign (k : string) (vs : list string) (v : Values) : Values :=
  match v with
  | [] => [(k, vs)]
  | (k', vs') :: r => if String.eqb k k' then (k, vs) :: r else (k', vs') :: assign k vs r
  end.

(** [v.Set(key, value)] *)
Definition Set_ (k x : string) (v : Values) : Values := assign k [x] v.

(** [v.Add(key, value)] *)
Definition Add (k x : string) (v : Values) : Values := assign k (lookupValues k v ++ [x]) v.

Fixpoint insertSorted (k : string) (l : list string) : list string :=
  match l with
  | [] => [k]
  | k' :: r => if String.leb k k' then k :: l else k' :: insertSorted k r
  end.

(** [sort.Strings] *)
Definition sortStrings (l : list string) : list string := foldr insertSorted [] l.

Fixpoint join (sep : string) (l : list string) : string :=
  match l with
  | [] => ""
  | [x] => x
  | x :: r => x ++ sep ++ join sep r
  end.

(** [v.Encode()]: ["k1=v1&k2=v2"], keys sorted, keys and values
    query-escaped. *)
Definition Encode (v : Values) : string :=
  join "&" (flat_map (fun k => map (fun x => QueryEscape k ++ "=" ++ QueryEscape x) (lookupValues k v))
                      (sortStrings (map fst v))).

(** [split(s, c, cutc)]: cut [s] at the first [c]; the second part keeps
    [c] unless [cutc]. Without a [c], the second part is empty. *)
Fixpoint split (s : string) (c : ascii) (cutc : bool) : string * string :=
  match s with
  | EmptyString => (EmptyString, EmptyString)
  | String x r =>
      if Ascii.eqb x c then (EmptyString, if cutc then r else s)
      else let '(a, b) := split r c cutc in (String x a, b)
  end.

(** The pieces of [s] between the bytes that satisfy [sep]. *)
Fixpoint fields (sep : ascii -> bool) (s : string) : list string :=
  match s with
  | EmptyString => [EmptyString]
  | String x r =>
      if sep x then EmptyString :: fields sep r
      else match fields sep r with
           | h :: t => String x h :: t
           | [] => [String x EmptyString]
           end
  end.

(** One iteration of [parseQuery]'s loop: an empty piece and a piece that
    does not unescape are skipped. *)
Definition parsePair (m : Values) (piece : string) : Values :=
  if String.eqb piece "" then m
  else
    let '(key, value) := split piece "=" true in
    match QueryUnescape key with
    | None => m
    | Some key =>
        match QueryUnescape value with
        | None => m
        | Some value => Add key value m
        end
    end.

(** [ParseQuery], its error dropped as [URL.Query] does. *)
Definition ParseQuery (query : string) : Values :=
  foldl parsePair [] (fields (fun c => isByte "&" c || isByte ";" c) query).

(** ** URLs *)

Record Userinfo := {
  username : string;
  password : string;
  passwordSet : bool;
}.

Record URL := {
  Scheme : string;
  Opaque : string;
  User : option Userinfo;
  Host : string;
  Path : string;
  RawQuery : string;
  Fragment : string;
}.

Definition zeroURL : URL :=
  {| Scheme := ""; Opaque := ""; User := None; Host := ""; Path := ""; RawQuery := ""; Fragment := "" |}.

Definition setRawQuery (q : string) (u : URL) : URL :=
  {| Scheme := Scheme u; Opaque := Opaque u; User := User u; Host := Host u; Path := Path u;
     RawQuery := q; Fragment := Fragment u |}.

Definition setFragment (f : string) (u : URL) : URL :=
  {| Scheme := Scheme u; Opaque := Opaque u; User := User u; Host := Host u; Path := Path u;
     RawQuery := RawQuery u; Fragment := f |}.

Definition nonEmpty (s : string) : bool := negb (String.eqb s "").

Definition UserinfoString (ui : Userinfo) : string :=
  escape (username ui) encodeUserPassword ++
  (if passwordSet ui then ":" ++ escape (password ui) encodeUserPassword else "").

Definition startsWith (c : ascii) (s : string) : bool :=
  match s with
  | String x _ => Ascii.eqb x c
  | EmptyString => false
  end.
Arguments startsWith c%_char_scope s.

(** [u.String()] *)
Definition String_ (u : URL) : string :=
  (if nonEmpty (Scheme u) then Scheme u ++ ":" else "") ++
  (if nonEmpty (Opaque u) then Opaque u
   else
     (if nonEmpty (Scheme u) || nonEmpty (Host u) || match User u with Some _ => true | None => false end
      then "//" ++ match User u with Some ui => UserinfoString ui ++ "@" | None => "" end ++ Host u
      else "") ++
     (if nonEmpty (Path u) && negb (startsWith "/" (Path u)) && nonEmpty (Host u) then "/" else "") ++
     escape (Path u) encodePath) ++
  (if nonEmpty (RawQuery u) then "?" ++ RawQuery u else "") ++
  (if nonEmpty (Fragment u) then "#" ++ escape (Fragment u) encodeFragment else "").

(** [u.Query()]: a fresh [Values], parsed from [RawQuery] at every call. *)
Definition Query (u : URL) : Values := ParseQuery (RawQuery u).

(** [getscheme]: the scheme and what follows its colon; no scheme when a
    byte that a scheme cannot hold comes first. [i0] says that the scan is
    at index 0. *)
Fixpoint scanScheme (i0 : bool) (s : string) : result (option (string * string)) :=
  match s with
  | EmptyString => Ok None
  | String c r =>
      let continue :=
        match scanScheme false r with
        | Ok (Some (scheme, rest)) => Ok (Some (String c scheme, rest))
        | other => other
        end in
      if between "a" "z" c || between "A" "Z" c then continue
      else if between "0" "9" c || isByte "+" c || isByte "-" c || isByte "." c then
        if i0 then Ok None else continue
      else if isByte ":" c then
        if i0 then Err "missing protocol scheme" else Ok (Some (EmptyString, r))
      else Ok None
  end.

Definition getscheme (rawurl : string) : result (string * string) :=
  match scanScheme true rawurl with
  | Ok (Some p) => Ok p
  | Ok None => Ok ("", rawurl)
  | Err e => Err e
  end.

(** [strings.ToLower] on the bytes a scheme is made of. *)
Definition lowerByte (c : ascii) : ascii :=
  if between "A" "Z" c then ascii_of_N (N_of_ascii c + 32) else c.

Fixpoint ToLower (s : string) : string :=
  match s with
  | EmptyString => EmptyString
  | String c r => String (lowerByte c) (ToLower r)
  end.

(** Cut at the last [c] ([strings.LastIndex]). *)
Fixpoint splitLast (s : string) (c : ascii) : option (string * string) :=
  match s with
  | EmptyString => None
  | String x r =>
      match splitLast r c with
      | Some (a, b) => Some (String x a, b)
      | None => if Ascii.eqb x c then Some (EmptyString, r) else None
      end
  end.

Fixpoint contains (c : ascii) (s : string) : bool :=
  match s with
  | EmptyString => false
  | String x r => Ascii.eqb x c || contains c r
  end.
Arguments contains c%_char_scope s.

Definition unescapeOr {A} (s : string) (mode : encoding) (k : string -> result A) : result A :=
  match unescape s mode with
  | Some t => k t
  | None => Err "invalid URL escape"
  end.

Definition parseAuthority (authority : string) : result (option Userinfo * string) :=
  match splitLast authority "@" with
  | None => Ok (None, authority)
  | Some (userinfo, host) =>
      if negb (contains ":" userinfo) then
        unescapeOr userinfo encodeUserPassword (fun userinfo =>
        Ok (Some {| username := userinfo; password := ""; passwordSet := false |}, host))
      else
        let '(username, password) := split userinfo ":" true in
        unescapeOr username encodeUserPassword (fun username =>
        unescapeOr password encodeUserPassword (fun password =>
        Ok (Some {| username := username; password := password; passwordSet := true |}, host)))
  end.

(** [parse(rawurl, false)] *)
Definition parse (rawurl : string) : result URL :=
  if String.eqb rawurl "*" then
    Ok {| Scheme := ""; Opaque := ""; User := None; Host := ""; Path := "*"; RawQuery := ""; Fragment := "" |}
  else
    match getscheme rawurl with
    | Err e => Err e
    | Ok (scheme, rest) =>
        let scheme := ToLower scheme in
        let '(rest, rawquery) := split rest "?" true in
        if negb (String.prefix "/" rest) && nonEmpty scheme then
          Ok {| Scheme := scheme; Opaque := rest; User := None; Host := ""; Path := "";
                RawQuery := rawquery; Fragment := "" |}
        else if (nonEmpty scheme || negb (String.prefix "///" rest)) && String.prefix "//" rest then
          let '(authority, rest) := split (String.substring 2 (String.length rest - 2) rest) "/" false in
          match parseAuthority authority with
          | Err e => Err e
          | Ok (user, host) =>
              if contains "%" host then Err "hexadecimal escape in host"
              else
                unescapeOr rest encodePath (fun path =>
                Ok {| Scheme := scheme; Opaque := ""; User := user; Host := host; Path := path;
                      RawQuery := rawquery; Fragment := "" |})
          end
        else
          unescapeOr rest encodePath (fun path =>
          Ok {| Scheme := scheme; Opaque := ""; User := None; Host := ""; Path := path;
                RawQuery := rawquery; Fragment := "" |})
    end.

(** [url.Parse]: the fragment is cut off first and unescaped last. *)
Definition Parse (rawurl : string) : result URL :=
  let '(u, frag) := split rawurl "#" true in
  match parse u with
  | Err e => Err e
  | Ok url =>
      if String.eqb frag "" then Ok url
      else unescapeOr frag encodeFragment (fun f => Ok (setFragment f url))
  end.

End url.


(** * Package types

    Modelled from the spec: the declarations of [types.Client],
    [types.Scope], the grant code and [types.Token] are not among the
    sources. The fields are those the handlers read ([Client.RedirectURL],
    [grantCode.Code], [token.Value], [token.Type], [token.ExpiresIn],
    [token.Scope]) and those of the data model (section 3): a client
    always carries its registered redirection URI, and an access token has
    an optional associated refresh token. [RedirectURL] is a [*url.URL]
    in the handlers; for a client of the registry it is not nil, and it
    is the URL it points to here. *)
Module types.

Record Client := {
  ID : string;
  Name : string;
  Desc : string;
  ProfileImgURL : string;
  HomepageURL : string;
  RedirectURL : url.URL;
}.

Definition zeroClient : Client :=
  {| ID := ""; Name := ""; Desc := ""; ProfileImgURL := ""; HomepageURL := "";
     RedirectURL := url.zeroURL |}.

Record Scope := {
  ScopeID : string;
  ScopeDesc : string;
}.

Inductive TokenType := AccessToken | RefreshToken.

Record GrantCode := {
  Code : string;
}.

(** [ExpiresIn] is a [time.Duration]: nanoseconds. *)
Record Token := {
  Value : string;
  Type_ : string;
  ExpiresIn : Z;
  Scope_ : list Scope;
  Refresh : string;
}.

End types.

(** Modelled from the spec: [StringifyScopes] is not among the sources;
    the scope parameter is the space-separated list of scope identifiers
    (section 6, wire formats). *)
Definition StringifyScopes (scopes : list types.Scope) : string :=
  url.join " " (map types.ScopeID scopes).

(** * Error vocabulary

    Modelled from the spec: the error constructors are not among the
    sources. Section 7 fixes the wire code of each kind of error, the
    tests of the authorization endpoint fix four of the descriptions, and
    an error made from an underlying cause describes itself by it
    (section 4.A). *)
Inductive ErrKind :=
| ClientIDMissing
| ClientIDNotFound
| RedirectURLInvalid
| RedirectURLMismatch
| StateRequired
| UnsupportedResponseType
| ScopeRequired
| ServerError.

Record AuthzError := {
  Kind : ErrKind;
  StateEcho : string;
  Cause : option error;
}.

Definition ErrClientIDMissing : AuthzError :=
  {| Kind := ClientIDMissing; StateEcho := ""; Cause := None |}.
Definition ErrClientIDNotFound : AuthzError :=
  {| Kind := ClientIDNotFound; StateEcho := ""; Cause := None |}.
Definition ErrRedirectURLInvalid : AuthzError :=
  {| Kind := RedirectURLInvalid; StateEcho := ""; Cause := None |}.
Definition ErrRedirectURLMismatch : AuthzError :=
  {| Kind := RedirectURLMismatch; StateEcho := ""; Cause := None |}.
Definition ErrStateRequired (state : string) : AuthzError :=
  {| Kind := StateRequired; StateEcho := state; Cause := None |}.
Definition ErrUnsupportedResponseType (state : string) : AuthzError :=
  {| Kind := UnsupportedResponseType; StateEcho := state; Cause := None |}.
Definition ErrScopeRequired (state : string) : AuthzError :=
  {| Kind := ScopeRequired; StateEcho := state; Cause := None |}.
Definition ErrServerError (state : string) (err : error) : AuthzError :=
  {| Kind := ServerError; StateEcho := state; Cause := Some err |}.

(** The RFC 6749 code on the wire. *)
Definition Code (e : AuthzError) : string :=
  match Kind e with
  | ClientIDMissing | ClientIDNotFound => "invalid_request"
  | RedirectURLInvalid | RedirectURLMismatch => "access_denied"
  | StateRequired | ScopeRequired => "invalid_request"
  | UnsupportedResponseType => "unsupported_response_type"
  | ServerError => "server_error"
  end.

(** The description, where the sources fix its wording. *)
Definition Desc (e : AuthzError) : option string :=
  match Cause e with
  | Some err => Some err
  | None =>
      match Kind e with
      | RedirectURLInvalid =>
          Some "3rd-party client app provided an invalid redirect_uri. It does not comply with http://tools.ietf.org/html/rfc3986#section-4.3 or does not use HTTPS"
      | RedirectURLMismatch =>
          Some "3rd-party client app provided a redirect_uri that does not match the URI registered for this client in our database."
      | StateRequired => Some "state parameter is required by this authorization server."
      | ScopeRequired => Some "scope parameter is required by this authorization server."
      | _ => None
      end
  end.

(** Modelled from the spec: [EncodeErrInURI] is not among the sources. It
    is handed a [url.Values] and an error, and an error redirect carries
    the keys [error], [error_description] and [state] (section 6); the
    [Values] it has filled in is its result here. *)
Definition EncodeErrInURI (query : url.Values) (err : AuthzError) : url.Values :=
  let query := url.Set_ "error" (Code err) query in
  let query := match Desc err with
               | Some d => url.Set_ "error_description" d query
               | None => query
               end in
  url.Set_ "state" (StateEcho err) query.

(** * The Provider and the handlers' effects *)

(** One entry per call of a [Provider] method, with its arguments. *)
Inductive Call :=
| CallIsUserAuthenticated
| CallLoginURL (refererURL : string)
| CallClientInfo (clientID : string)
| CallScopesInfo (scopes : string)
| CallGenAuthzCode (client : types.Client) (scopes : list types.Scope)
| CallGenToken (tokenType : types.TokenType) (scopes : list types.Scope) (client : types.Client).

(** The methods of the [Provider] interface that the authorization
    endpoint calls. Each is a transition of the provider's store [St]. *)
Record Provider (St : Type) := {
  IsUserAuthenticated : St -> bool * St;
  LoginURL : string -> St -> string * St;
  ClientInfo : string -> St -> result types.Client * St;
  ScopesInfo : string -> St -> result (list types.Scope) * St;
  GenAuthzCode : types.Client -> list types.Scope -> St -> result types.GrantCode * St;
  GenToken : types.TokenType -> list types.Scope -> types.Client -> St -> result types.Token * St;
}.
Arguments IsUserAuthenticated {St} _ _.
Arguments LoginURL {St} _ _ _.
Arguments ClientInfo {St} _ _ _.
Arguments ScopesInfo {St} _ _ _.
Arguments GenAuthzCode {St} _ _ _ _.
Arguments GenToken {St} _ _ _ _ _.

(** The world a handler runs in: the provider's store and the log of the
    calls made so far. *)
Record World (St : Type) := {
  store : St;
  calls : list Call;
}.
Arguments store {St} _.
Arguments calls {St} _.

Definition M (St A : Type) : Type := World St -> A * World St.

Definition ret {St A} (a : A) : M St A := fun w => (a, w).

Definition bind {St A B} (m : M St A) (k : A -> M St B) : M St B :=
  fun w => let '(a, w') := m w in k a w'.

Notation "'call' x <- m ; k" := (bind m (fun x => k))
  (at level 10, x name, m at level 100, k at level 200, format "'[v' 'call'  x  <-  m ; '/' k ']'").

(** Call a provider method: run its transition and log the call. *)
Definition invoke {St A} (c : Call) (method : St -> A * St) : M St A :=
  fun w =>
    let '(a, s) := method (store w) in
    (a, {| store := s; calls := calls w ++ [c] |}).

(** * Requests, configuration, responses *)

(** [http.Request]: the method, the URL, and the form that [FormValue]
    reads (the query string, and the body of a POST). *)
Record Request := {
  Method : string;
  URL : url.URL;
  Form : url.Values;
}.

(** [req.FormValue(key)]: the first value of [key], the empty string when
    there is none. *)
Definition FormValue (req : Request) (key : string) : string := url.Get key (Form req).

Record config (St : Type) := {
  authzEndpoint : string;
  tokenEndpoint : string;
  revokeEndpoint : string;
  stsMaxAge : Z;
  authzForm : string;
  provider : Provider St;
}.
Arguments authzEndpoint {St} _.
Arguments tokenEndpoint {St} _.
Arguments revokeEndpoint {St} _.
Arguments stsMaxAge {St} _.
Arguments authzForm {St} _.
Arguments provider {St} _.

Record AuthzData := {
  Client : types.Client;
  Scopes : list types.Scope;
  Errors : list AuthzError;
  GrantType : string;
  State : string;
}.

(** [AuthzData{Errors: errs}] *)
Definition errorData (errs : list AuthzError) : AuthzData :=
  {| Client := types.zeroClient; Scopes := []; Errors := errs; GrantType := ""; State := "" |}.

Module render.
Record Options := {
  Status : Z;
  Data : AuthzData;
  Template : string;
  STSMaxAge : Z;
}.
End render.

Definition StatusOK : Z := 200.
Definition StatusFound : Z := 302.

(** What the handler sends: [render.HTML(w, opts)] or
    [http.Redirect(w, req, urlStr, code)]. *)
Inductive Response :=
| HTML (opts : render.Options)
| Redirect (urlStr : string) (code : Z).

(** [m[key]] on a [map[string]string]: the empty string for a missing key. *)
Definition index (m : gmap string string) (key : string) : string :=
  default "" (m !! key).

(** [&cinfo == nil]: the address of a local variable is never nil. *)
Definition addrIsNil {A} (x : A) : bool := false.

(** * The handlers *)

Section Handlers.

Context {St : Type}.

(** [url.Parse]. The handlers are written over any parser, and what is
    proved of them holds whatever [url.Parse] does; the examples run them
    with [url.Parse] above. *)
Variable Parse : string -> result url.URL.

(** [strconv.FormatFloat(d.Seconds(), 'f', -1, 64)] of a duration [d] in
    nanoseconds: the float formatting is left to the caller. *)
Variable FormatSeconds : Z -> string.

(** The page that reports [errs] to the resource owner. *)
Definition renderErrors (cfg : config St) (errs : list AuthzError) : Response :=
  HTML {| render.Status := StatusOK;
          render.Data := errorData errs;
          render.Template := authzForm cfg;
          render.STSMaxAge := 0 |}.

(** [authCodeGrant1]: [inl] is the response already sent (the Go function
    returns nil), [inr] the validated request. *)
Definition authCodeGrant1 (req : Request) (cfg : config St) (params : gmap string string)
  : M St (Response + AuthzData) :=
  let clientID := index params "client_id" in
  if String.eqb clientID "" then
    ret (inl (renderErrors cfg [ErrClientIDMissing]))
  else
    call r <- invoke (CallClientInfo clientID) (ClientInfo (provider cfg) clientID);
    match r with
    | Err err => ret (inl (renderErrors cfg [ErrServerError "" err]))
    | Ok cinfo =>
        if addrIsNil cinfo then
          ret (inl (renderErrors cfg [ErrClientIDNotFound]))
        else
          let parsed :=
            match params !! "redirect_uri" with
            | Some u => Parse u
            | None => Ok (types.RedirectURL cinfo)
            end in
          match parsed with
          | Err _ => ret (inl (renderErrors cfg [ErrRedirectURLInvalid]))
          | Ok redirectURL =>
              if negb (String.eqb (url.Scheme redirectURL) "https") then
                ret (inl (renderErrors cfg [ErrRedirectURLInvalid]))
              else if negb (String.eqb (url.String_ redirectURL)
                                       (url.String_ (types.RedirectURL cinfo))) then
                ret (inl (renderErrors cfg [ErrRedirectURLMismatch]))
              else
                let state := index params "state" in
                if String.eqb state "" then
                  let _ := EncodeErrInURI (url.Query redirectURL) (ErrStateRequired state) in
                  ret (inl (Redirect (url.String_ redirectURL) StatusFound))
                else
                  let grantType := index params "response_type" in
                  if negb (String.eqb grantType "code") && negb (String.eqb grantType "token") then
                    let _ := EncodeErrInURI (url.Query redirectURL) (ErrUnsupportedResponseType state) in
                    ret (inl (Redirect (url.String_ redirectURL) StatusFound))
                  else
                    let scope := index params "scope" in
                    if String.eqb scope "" then
                      let _ := EncodeErrInURI (url.Query redirectURL) (ErrScopeRequired state) in
                      ret (inl (Redirect (url.String_ redirectURL) StatusFound))
                    else
                      call r <- invoke (CallScopesInfo scope) (ScopesInfo (provider cfg) scope);
                      match r with
                      | Err err =>
                          let _ := EncodeErrInURI (url.Query redirectURL) (ErrServerError state err) in
                          ret (inl (Redirect (url.String_ redirectURL) StatusFound))
                      | Ok scopes =>
                          ret (inr {| Client := cinfo;
                                      Scopes := scopes;
                                      Errors := [];
                                      GrantType := grantType;
                                      State := state |})
                      end
          end
    end.

(** [implicitGrant]. The handler writes the fragment through the pointer
    [Client.RedirectURL]; [u] is the URL as the handler then prints it. *)
Definition implicitGrant (req : Request) (cfg : config St) (authzData : AuthzData) : M St Response :=
  let u := types.RedirectURL (Client authzData) in
  call r <- invoke (CallGenToken types.AccessToken (Scopes authzData) (Client authzData))
                   (GenToken (provider cfg) types.AccessToken (Scopes authzData) (Client authzData));
  match r with
  | Err err =>
      let _ := EncodeErrInURI (url.Query u) (ErrServerError (State authzData) err) in
      ret (Redirect (url.String_ u) StatusFound)
  | Ok token =>
      let query : url.Values := [] in
      let query := url.Set_ "access_token" (types.Value token) query in
      let query := url.Set_ "token_type" (types.Type_ token) query in
      let query := url.Set_ "expires_in" (FormatSeconds (types.ExpiresIn token)) query in
      let query := url.Set_ "scope" (StringifyScopes (types.Scope_ token)) query in
      let query := url.Set_ "state" (State authzData) query in
      let u := url.setFragment ("#" ++ url.Encode query) u in
      ret (Redirect (url.String_ u) StatusFound)
  end.

Definition vars : list string := ["client_id"; "state"; "redirect_uri"; "scope"; "response_type"].

(** The [params] map that [CreateGrant] fills in, one entry per name in
    [vars]. *)
Definition collectParams (req : Request) : gmap string string :=
  foldl (fun params v => <[v := FormValue req v]> params) ∅ vars.

(** [CreateGrant]. As in [implicitGrant], the last [u] is the registered
    URL with the query that the handler has written into it. *)
Definition CreateGrant (req : Request) (cfg : config St) : M St Response :=
  call yes <- invoke CallIsUserAuthenticated (IsUserAuthenticated (provider cfg));
  if negb yes then
    call loginURL <- invoke (CallLoginURL (url.String_ (URL req)))
                            (LoginURL (provider cfg) (url.String_ (URL req)));
    ret (Redirect loginURL StatusFound)
  else
    let params := collectParams req in
    call authzData <- authCodeGrant1 req cfg params;
    match authzData with
    | inl sent => ret sent
    | inr authzData =>
        if String.eqb (Method req) "GET" then
          ret (HTML {| render.Status := StatusOK;
                       render.Data := authzData;
                       render.Template := authzForm cfg;
                       render.STSMaxAge := stsMaxAge cfg |})
        else if String.eqb (index params "response_type") "token" then
          implicitGrant req cfg authzData
        else
          call r <- invoke (CallGenAuthzCode (Client authzData) (Scopes authzData))
                           (GenAuthzCode (provider cfg) (Client authzData) (Scopes authzData));
          match r with
          | Err err => ret (renderErrors cfg [ErrServerError "" err])
          | Ok grantCode =>
              let u := types.RedirectURL (Client authzData) in
              let query := url.Query u in
              let query := url.Set_ "code" (types.Code grantCode) query in
              let query := url.Set_ "state" (State authzData) query in
              let u := url.setRawQuery (url.Encode query) u in
              ret (Redirect (url.String_ u) StatusFound)
          end
    end.

End Handlers.

(** * An in-memory provider

    The provider of the scenarios of section 8: one client,
    [test_client_id], registered with [https://example.com/cb]; the
    scopes [read], [write] and [identity]; bearer tokens that last 600
    seconds. Its store holds the session flag and the codes and tokens
    issued so far. *)
Module TestProvider.

Record Store := {
  session : bool;
  codes : list string;
  tokens : list string;
}.

Definition registered : url.URL :=
  {| url.Scheme := "https"; url.Opaque := ""; url.User := None; url.Host := "example.com";
     url.Path := "/cb"; url.RawQuery := ""; url.Fragment := "" |}.

Definition client : types.Client :=
  {| types.ID := "test_client_id";
     types.Name := "Test Client";
     types.Desc := "";
     types.ProfileImgURL := "";
     types.HomepageURL := "";
     types.RedirectURL := registered |}.

Definition catalogue : list string := ["read"; "write"; "identity"].

Definition knownScope (id : string) : bool :=
  existsb (String.eqb id) catalogue.

(** The [n]-th credential with prefix [p]: [p] followed by [n] dashes. *)
Definition fresh (p : string) (n : nat) : string :=
  p ++ string_of_list_ascii (repeat "-"%char n).

Definition NewProvider : Provider Store :=
  {| IsUserAuthenticated := fun s => (session s, s);
     LoginURL := fun refererURL s =>
       ("https://example.com/login?referer=" ++ url.QueryEscape refererURL, s);
     ClientInfo := fun clientID s =>
       (if String.eqb clientID (types.ID client) then Ok client else Ok types.zeroClient, s);
     ScopesInfo := fun scopes s =>
       (Ok (map (fun id => {| types.ScopeID := id; types.ScopeDesc := "" |})
                (filter (fun id => knownScope id = true) (url.fields (url.isByte " ") scopes))), s);
     GenAuthzCode := fun _ _ s =>
       let code := fresh "code" (length (codes s)) in
       (Ok {| types.Code := code |},
        {| session := session s; codes := codes s ++ [code]; tokens := tokens s |});
     GenToken := fun _ scopes _ s =>
       let value := fresh "token" (length (tokens s)) in
       (Ok {| types.Value := value; types.Type_ := "bearer"; types.ExpiresIn := 600 * 10 ^ 9;
              types.Scope_ := scopes; types.Refresh := "" |},
        {| session := session s; codes := codes s; tokens := tokens s ++ [value] |}) |}.

Definition cfg : config Store :=
  {| authzEndpoint := "/oauth2/authzs";
     tokenEndpoint := "/oauth2/tokens";
     revokeEndpoint := "/oauth2/revoke";
     stsMaxAge := 31536000 * 10 ^ 9;
     authzForm := "authzform";
     provider := NewProvider |}.

(** A world with a logged-in resource owner, nothing issued, nothing
    called. *)
Definition loggedIn : World Store :=
  {| store := {| session := true; codes := []; tokens := [] |}; calls := [] |}.

Definition loggedOut : World Store :=
  {| store := {| session := false; codes := []; tokens := [] |}; calls := [] |}.

(** A whole number of seconds, as [FormatFloat] prints it. *)
Definition wholeSeconds (d : Z) : string :=
  if (d / 10 ^ 9 =? 600)%Z then "600" else "0".

Definition authzs : url.URL :=
  {| url.Scheme := "https"; url.Opaque := ""; url.User := None; url.Host := "example.com";
     url.Path := "/oauth2/authzs"; url.RawQuery := ""; url.Fragment := "" |}.

(** A request to the authorization endpoint with the given form: in the
    query string for a GET, in the body otherwise. *)
Definition request (method : string) (form : url.Values) : Request :=
  {| Method := method;
     URL := if String.eqb method "GET" then url.setRawQuery (url.Encode form) authzs else authzs;
     Form := form |}.

Definition run (req : Request) (w : World Store) : Response * World Store :=
  CreateGrant url.Parse wholeSeconds req cfg w.

(** The form of the scenarios: all five parameters. *)
Definition consent (response_type redirect_uri : string) : url.Values :=
  [("client_id", ["test_client_id"]);
   ("response_type", [response_type]);
   ("state", ["state-test"]);
   ("redirect_uri", [redirect_uri]);
   ("scope", ["read write identity"])].

(** The same without [redirect_uri], without [state], without [scope]. *)
Definition withoutRedirectURI : url.Values :=
  [("client_id", ["test_client_id"]);
   ("response_type", ["code"]);
   ("state", ["state-test"]);
   ("scope", ["read write identity"])].

Definition withoutState : url.Values :=
  [("client_id", ["test_client_id"]);
   ("response_type", ["code"]);
   ("redirect_uri", ["https://example.com/cb"]);
   ("scope", ["read write identity"])].

Definition withoutScope : url.Values :=
  [("client_id", ["test_client_id"]);
   ("response_type", ["code"]);
   ("state", ["state-test"]);
   ("redirect_uri", ["https://example.com/cb"])].

(** A client that the registry does not know, over plain http. *)
Definition unknownClient : url.Values :=
  [("client_id", ["nobody"]);
   ("response_type", ["code"]);
   ("state", ["state-test"]);
   ("redirect_uri", ["http://attacker.com/callback"]);
   ("scope", ["read write identity"])].

Definition scopes : list types.Scope :=
  [{| types.ScopeID := "read"; types.ScopeDesc := "" |};
   {| types.ScopeID := "write"; types.ScopeDesc := "" |};
   {| types.ScopeID := "identity"; types.ScopeDesc := "" |}].

Definition validated (response_type : string) : AuthzData :=
  {| Client := client; Scopes := scopes; Errors := []; GrantType := response_type;
     State := "state-test" |}.

End TestProvider.

(** * The order of validation (section 4.C)

    The ten steps of the request validator, read off the specification:
    the first step that fails, given the parameters and the Provider's
    answers. Not-found has no place among the answers of [ClientInfo],
    which are a client or an error. *)
Inductive Failure :=
| MissingClientID
| ClientLookupFailed
| RedirectUnparsable
| RedirectNotHTTPS
| RedirectMismatch
| MissingState
| UnsupportedResponse
| MissingScope
| ScopeParseError.



Section Validation.

Context {St : Type}.
Variable Parse : string -> result url.URL.

(** The redirection URI of the request: the supplied one, parsed, or the
    registered one when the parameter is not in the map. *)
Definition requestedURL (params : gmap string string) (cinfo : types.Client) : result url.URL :=
  match params !! "redirect_uri" with
  | Some u => Parse u
  | None => Ok (types.RedirectURL cinfo)
  end.

Definition checkRedirect (params : gmap string string) (cinfo : types.Client) : option Failure :=
  match requestedURL params cinfo with
  | Err _ => Some RedirectUnparsable
  | Ok u =>
      if negb (String.eqb (url.Scheme u) "https") then Some RedirectNotHTTPS
      else if negb (String.eqb (url.String_ u) (url.String_ (types.RedirectURL cinfo)))
      then Some RedirectMismatch
      else None
  end.

Definition checkParams (cfg : config St) (params : gmap string string) (s : St) : option Failure :=
  if String.eqb (index params "state") "" then Some MissingState
  else if negb (String.eqb (index params "response_type") "code")
          && negb (String.eqb (index params "response_type") "token")
  then Some UnsupportedResponse
  else if String.eqb (index params "scope") "" then Some MissingScope
  else match fst (ScopesInfo (provider cfg) (index params "scope") s) with
       | Err _ => Some ScopeParseError
       | Ok _ => None
       end.

Definition firstFailure (cfg : config St) (params : gmap string string) (s : St) : option Failure :=
  if String.eqb (index params "client_id") "" then Some MissingClientID
  else
    match ClientInfo (provider cfg) (index params "client_id") s with
    | (Err _, _) => Some ClientLookupFailed
    | (Ok cinfo, s') =>
        match checkRedirect params cinfo with
        | Some f => Some f
        | None => checkParams cfg params s'
        end
    end.


End Validation.

(** * Reading and minting *)

(** The calls that mint a credential. *)
Definition mints (c : Call) : bool :=
  match c with
  | CallGenAuthzCode _ _ | CallGenToken _ _ _ => true
  | _ => false
  end.

(** The calls that only read: the session check, the login URL, the
    client lookup and the scope parse. *)
Definition reads (c : Call) : bool :=
  match c with
  | CallIsUserAuthenticated | CallLoginURL _ | CallClientInfo _ | CallScopesInfo _ => true
  | _ => false
  end.

(** The reading methods of provider [p] leave the observation [obs] of
    its store as it is. *)
Definition readsPreserve {St G} (obs : St -> G) (p : Provider St) : Prop :=
  (∀ s, obs (snd (IsUserAuthenticated p s)) = obs s) ∧
  (∀ r s, obs (snd (LoginURL p r s)) = obs s) ∧
  (∀ i s, obs (snd (ClientInfo p i s)) = obs s) ∧
  (∀ x s, obs (snd (ScopesInfo p x s)) = obs s).

(** The consent form, an error page, or a redirect. *)
Definition rendersOrRedirects (resp : Response) : Prop :=
  match resp with
  | HTML opts =>
      render.Status opts = StatusOK
  | Redirect _ code => code = StatusFound
  end.

(** The calls made from [w] to [w'] are [l]. *)
Definition callsSince {St} (w w' : World St) (l : list Call) : Prop :=
  calls w' = (calls w ++ l)%list.

(** The request makes no call that mints between [w] and [w']. *)
Definition noMint {St} (w w' : World St) : Prop :=
  ∃ l, calls w' = (calls w ++ l)%list ∧ Forall (fun c => mints c = false) l.

(** The request gets as far as the checks of the redirection URI: the
    resource owner is logged in, [client_id] is there, and the Provider
    answers the lookup with the client [cinfo]. *)
Definition reachesRedirectChecks {St} (cfg : config St) (req : Request) (w : World St)
    (cinfo : types.Client) : Prop :=
  ∃ s1 s2,
    IsUserAuthenticated (provider cfg) (store w) = (true, s1) ∧
    FormValue req "client_id" ≠ "" ∧
    ClientInfo (provider cfg) (FormValue req "client_id") s1 = (Ok cinfo, s2).

(** The redirection URI [raw] of a request differs from the registered
    one as [authCodeGrant1] compares them: it does not parse, or it is
    not written the same once parsed. *)
Definition redirectDiffers (Parse : string -> result url.URL) (raw : string)
    (registered : url.URL) : Prop :=
  match Parse raw with
  | Err _ => True
  | Ok u => url.String_ u ≠ url.String_ registered
  end.

(** The empty redirection URI is not an https one. *)
Definition emptyIsNotHTTPS (Parse : string -> result url.URL) : Prop :=
  match Parse "" with
  | Err _ => True
  | Ok u => url.Scheme u ≠ "https"
  end.

(** No byte of [s] satisfies [p]. *)
Fixpoint noneOf (p : ascii -> bool) (s : string) : bool :=
  match s with
  | EmptyString => true
  | String c r => negb (p c) && noneOf p r
  end.

(** The bytes that [parseQuery] cuts at. *)
Definition separates (c : ascii) : bool := url.isByte "&" c || url.isByte ";" c.
Definition delimits (c : ascii) : bool := separates c || url.isByte "=" c.

(** One [key=value] of an encoded query. *)
Definition encodePair (kv : string * string) : string :=
  url.QueryEscape (fst kv) ++ "=" ++ url.QueryEscape (snd kv).

(** The pairs that [implicitGrant] puts in the fragment, in the order of
    their keys. *)
Definition implicitPairs (FormatSeconds : Z -> string) (token : types.Token) (state : string)
  : list (string * string) :=
  [("access_token", types.Value token);
   ("expires_in", FormatSeconds (types.ExpiresIn token));
   ("scope", StringifyScopes (types.Scope_ token));
   ("state", state);
   ("token_type", types.Type_ token)].

(** * The token endpoint and the store of grants

    Modelled from the spec: the token endpoint ([IssueToken]) and the
    store that the Provider keeps behind [GenAuthzCode], [GenToken],
    [RefreshToken] and [RevokeToken] are not among the sources; the tests
    only call them. What follows is section 4.D (token endpoint, state
    machine summary) with the data model of section 3 and the design note
    on cascade revocation: a grant is ISSUED, REDEEMED, REVOKED or
    EXPIRED; a token is ACTIVE, REVOKED or EXPIRED and refers back to the
    grant it comes from; a code is redeemed when it has not been used,
    has not expired, belongs to the authenticated client and is presented
    with the redirection URI it was created with; any other presentation
    of a known code answers [invalid_grant], revokes the grant and
    revokes every token that comes from it. Codes and tokens are opaque:
    they are numbered as they are issued. *)
Module TokenEndpoint.

Module Grant.
Inductive State := ISSUED | REDEEMED | REVOKED | EXPIRED.

Record t := {
  state : State;
  client : string;
  redirectURI : string;
  expires : Z;
}.

Definition setState (st : State) (g : t) : t :=
  {| state := st; client := client g; redirectURI := redirectURI g; expires := expires g |}.

Definition issued (g : t) : bool :=
  match state g with ISSUED => true | _ => false end.
End Grant.

Module Token.
Inductive State := ACTIVE | REVOKED | EXPIRED.
Inductive Kind := Access | Refresh.

(** [origin] is the code of the grant the token was issued from; a token
    of the implicit flow has none. *)
Record t := {
  state : State;
  kind : Kind;
  origin : option nat;
}.

Definition revoke (tok : t) : t :=
  {| state := REVOKED; kind := kind tok; origin := origin tok |}.
End Token.

Record Store := {
  grants : gmap nat Grant.t;
  tokens : gmap nat Token.t;
  next : nat;
}.

Definition empty : Store := {| grants := ∅; tokens := ∅; next := 0 |}.

(** A request to the token endpoint with [grant_type=authorization_code],
    from the client that has authenticated; [wantRefresh] says whether a
    refresh token comes with the access token. *)
Record TokenRequest := {
  authClient : string;
  code : nat;
  redirect_uri : string;
  now : Z;
  wantRefresh : bool;
}.

Inductive Reply :=
| Granted (code : nat)
| Issued (access : nat) (refresh : option nat)
| ErrorJSON (error error_description : string)
| Revoked.

Definition invalid_grant : Reply :=
  ErrorJSON "invalid_grant" "Grant code was revoked, expired or already used.".

(** The Provider creates a grant at the consent submission. *)
Definition genAuthzCode (client redirectURI : string) (expires : Z) (s : Store) : Reply * Store :=
  (Granted (next s),
   {| grants := <[next s := {| Grant.state := Grant.ISSUED; Grant.client := client;
                               Grant.redirectURI := redirectURI; Grant.expires := expires |}]>
                  (grants s);
      tokens := tokens s;
      next := S (next s) |}).

(** Conditions (a) to (d) of the token endpoint. *)
Definition redeemable (g : Grant.t) (rq : TokenRequest) : bool :=
  Grant.issued g
  && (now rq <=? Grant.expires g)%Z
  && String.eqb (authClient rq) (Grant.client g)
  && String.eqb (redirect_uri rq) (Grant.redirectURI g).

(** Every token that comes from grant [c] moves to REVOKED. *)
Definition cascadeRevoke (c : nat) (ts : gmap nat Token.t) : gmap nat Token.t :=
  (fun tok => if decide (Token.origin tok = Some c) then Token.revoke tok else tok) <$> ts.

Definition newToken (k : Token.Kind) (c : nat) : Token.t :=
  {| Token.state := Token.ACTIVE; Token.kind := k; Token.origin := Some c |}.

(** The token endpoint, [grant_type=authorization_code]. *)
Definition issueToken (rq : TokenRequest) (s : Store) : Reply * Store :=
  match grants s !! code rq with
  | None => (invalid_grant, s)
  | Some g =>
      if redeemable g rq then
        let access := next s in
        if wantRefresh rq then
          (Issued access (Some (S access)),
           {| grants := <[code rq := Grant.setState Grant.REDEEMED g]> (grants s);
              tokens := <[S access := newToken Token.Refresh (code rq)]>
                          (<[access := newToken Token.Access (code rq)]> (tokens s));
              next := S (S access) |})
        else
          (Issued access None,
           {| grants := <[code rq := Grant.setState Grant.REDEEMED g]> (grants s);
              tokens := <[access := newToken Token.Access (code rq)]> (tokens s);
              next := S access |})
      else
        (invalid_grant,
         {| grants := <[code rq := Grant.setState Grant.REVOKED g]> (grants s);
            tokens := cascadeRevoke (code rq) (tokens s);
            next := next s |})
  end.

(** The token endpoint, [grant_type=refresh_token]: an active refresh
    token yields a new access token of the same grant. *)
Definition refreshToken (r : nat) (s : Store) : Reply * Store :=
  match tokens s !! r with
  | Some {| Token.state := Token.ACTIVE; Token.kind := Token.Refresh; Token.origin := o |} =>
      (Issued (next s) None,
       {| grants := grants s;
          tokens := <[next s := {| Token.state := Token.ACTIVE; Token.kind := Token.Access;
                                   Token.origin := o |}]> (tokens s);
          next := S (next s) |})
  | _ => (invalid_grant, s)
  end.

(** Revocation (RFC 7009): idempotent, silent about unknown tokens. *)
Definition revokeToken (t : nat) (s : Store) : Reply * Store :=
  (Revoked, {| grants := grants s; tokens := alter Token.revoke t (tokens s); next := next s |}).

Inductive Op :=
| OpGenAuthzCode (client redirectURI : string) (expires : Z)
| OpIssueToken (rq : TokenRequest)
| OpRefreshToken (refresh : nat)
| OpRevokeToken (token : nat).

Definition step (op : Op) (s : Store) : Reply * Store :=
  match op with
  | OpGenAuthzCode client redirectURI expires => genAuthzCode client redirectURI expires s
  | OpIssueToken rq => issueToken rq s
  | OpRefreshToken r => refreshToken r s
  | OpRevokeToken t => revokeToken t s
  end.

(** Run the requests in order; the trace pairs each with its reply. *)
Fixpoint exec (ops : list Op) (s : Store) : list (Op * Reply) * Store :=
  match ops with
  | [] => ([], s)
  | op :: rest =>
      let '(r, s') := step op s in
      let '(trace, s'') := exec rest s' in
      ((op, r) :: trace, s'')
  end.

(** A successful exchange of code [c]. *)
Definition exchanged (c : nat) (e : Op * Reply) : bool :=
  match e with
  | (OpIssueToken rq, Issued _ _) => Nat.eqb (code rq) c
  | _ => false
  end.

Definition successes (c : nat) (trace : list (Op * Reply)) : nat :=
  length (List.filter (exchanged c) trace).

(** Every token of [s] that was issued from [c] is revoked. *)
Definition descendantsRevoked (c : nat) (s : Store) : Prop :=
  ∀ t tok, tokens s !! t = Some tok -> Token.origin tok = Some c -> Token.state tok = Token.REVOKED.

(** How many exchanges code [c] is still good for in store [s]. *)
Definition budget (c : nat) (s : Store) : nat :=
  match grants s !! c with
  | Some g => if Grant.issued g then 1 else 0
  | None => 1
  end.

(** Codes are issued in order: every known code is below [next]. *)
Definition wellFormed (s : Store) : Prop :=
  ∀ c g, grants s !! c = Some g -> (c < next s)%nat.

(** Scenario S4: a code is created and exchanged by the client it was
    given to, with a refresh token. *)
Definition exchange : TokenRequest :=
  {| authClient := "test_client_id"; code := 0; redirect_uri := "https://example.com/cb";
     now := 10; wantRefresh := true |}.

Definition firstExchange : list Op :=
  [OpGenAuthzCode "test_client_id" "https://example.com/cb" 600; OpIssueToken exchange].

End TokenEndpoint.

(** * The dispatcher (provider.go)

    [Handler] builds the configuration from its options, stops the
    process when the consent form or the provider is missing, and then
    routes each request by the prefix of its path and by its method. *)

(** What a request gets back: the response of a handler of the
    authorization endpoint, a status with a plain body
    ([w.WriteHeader] and [w.Write]), or nothing at all. *)
Inductive Served :=
| Sent (resp : Response)
| Written (code : Z) (body : string)
| Silent.

Definition StatusMethodNotAllowed : Z := 405.

(** A handler of the registry: it is given the writer, the request, the
    configuration and the [http.Handler] that would serve the request
    next. *)
Definition HandlerFn (St : Type) : Type :=
  Request -> config St -> (Request -> M St Served) -> M St Served.

(** [RevokeGrant]: its body is a TODO. *)
Definition RevokeGrant {St} : HandlerFn St := fun _ _ _ => ret Silent.

(** [config] while the options are applied: the endpoints and the STS
    max age have their defaults, the form ([*template.Template]) and the
    provider are nil until an option sets them. *)
Record settings (St : Type) := {
  authz : string;
  token : string;
  revoke : string;
  maxAge : Z;
  form : option string;
  impl : option (Provider St);
}.
Arguments authz {St} _.
Arguments token {St} _.
Arguments revoke {St} _.
Arguments maxAge {St} _.
Arguments form {St} _.
Arguments impl {St} _.

(** [option]: a function that updates the configuration. An option can
    stop the process
    ([log.Fatalln]): [Err] with what is logged. *)
Definition option_ (St : Type) : Type := settings St -> result (settings St).

Section Dispatcher.

Context {St : Type}.
Variable Parse : string -> result url.URL.
Variable FormatSeconds : Z -> string.

(** [template.New("authzform").Parse(form)], of html/template. *)
Variable parseTemplate : string -> result string.

(** [TokenHandlers] is declared with the token endpoint, which is not
    among the sources. *)
Variable TokenHandlers : gmap string (HandlerFn St).

Definition SetTokenEndpoint (endpoint : string) : option_ St := fun c =>
  Ok {| authz := authz c; token := endpoint; revoke := revoke c; maxAge := maxAge c;
        form := form c; impl := impl c |}.

Definition SetAuthzEndpoint (endpoint : string) : option_ St := fun c =>
  Ok {| authz := endpoint; token := token c; revoke := revoke c; maxAge := maxAge c;
        form := form c; impl := impl c |}.

Definition SetRevokeEndpoint (endpoint : string) : option_ St := fun c =>
  Ok {| authz := authz c; token := token c; revoke := endpoint; maxAge := maxAge c;
        form := form c; impl := impl c |}.

Definition SetSTSMaxAge (age : Z) : option_ St := fun c =>
  Ok {| authz := authz c; token := token c; revoke := revoke c; maxAge := age;
        form := form c; impl := impl c |}.

Definition SetAuthzForm (text : string) : option_ St := fun c =>
  match parseTemplate text with
  | Err err => Err ("Error parsing authorization form: %v " ++ err)
  | Ok tpl =>
      Ok {| authz := authz c; token := token c; revoke := revoke c; maxAge := maxAge c;
            form := Some tpl; impl := impl c |}
  end.

(** The configuration [Handler] starts from. *)
Definition defaults : settings St :=
  {| authz := "/oauth2/authzs"; token := "/oauth2/tokens"; revoke := "/oauth2/revoke";
     maxAge := 31536000 * 10 ^ 9; form := None; impl := None |}.

(** [for _, opt := range opts { opt(cfg) }] *)
Fixpoint applyOptions (opts : list (option_ St)) (c : settings St) : result (settings St) :=
  match opts with
  | [] => Ok c
  | opt :: rest =>
      match opt c with
      | Err e => Err e
      | Ok c' => applyOptions rest c'
      end
  end.

(** [Handler], up to the two checks: the configuration that the handler
    serves with, or what is logged when the process stops. *)
Definition configure (opts : list (option_ St)) : result (config St) :=
  match applyOptions opts defaults with
  | Err e => Err e
  | Ok c =>
      match form c with
      | None => Err "Authorization form is required"
      | Some tpl =>
          match impl c with
          | None => Err "An implementation of the oauth2.Provider interface is expected"
          | Some p =>
              Ok {| authzEndpoint := authz c; tokenEndpoint := token c;
                    revokeEndpoint := revoke c; stsMaxAge := maxAge c;
                    authzForm := tpl; provider := p |}
          end
      end
  end.

(** [CreateGrant] as an entry of [AuthzHandlers]: it does not use the
    next handler. *)
Definition createGrant : HandlerFn St := fun req cfg _ =>
  call resp <- CreateGrant Parse FormatSeconds req cfg; ret (Sent resp).

(** [AuthzHandlers] *)
Definition AuthzHandlers : gmap string (HandlerFn St) :=
  <["DELETE" := RevokeGrant]> (<["POST" := createGrant]> (<["GET" := createGrant]> ∅)).

(** The registry of [Handler]: a map from endpoint to handlers, the
    token endpoint entered after the authorization endpoint. *)
Definition registry (cfg : config St) : gmap string (gmap string (HandlerFn St)) :=
  <[tokenEndpoint cfg := TokenHandlers]> (<[authzEndpoint cfg := AuthzHandlers]> ∅).

(** The loop over the registry, its entries in the order [entries]: the
    first endpoint that is a prefix of the path decides. *)
Fixpoint dispatch (entries : list (string * gmap string (HandlerFn St))) (req : Request)
    (cfg : config St) (next : Request -> M St Served) : M St Served :=
  match entries with
  | [] => ret Silent
  | (p, handlers) :: rest =>
      if String.prefix p (url.Path (URL req)) then
        match handlers !! Method req with
        | Some handlerFn => handlerFn req cfg next
        | None => ret (Written StatusMethodNotAllowed "Method Not Allowed")
        end
      else dispatch rest req cfg next
  end.

(** Go ranges over a map in an order of its choosing: the handler serves
    [req] with [out] when some order of the registry gives [out]. *)
Definition serves (cfg : config St) (next : Request -> M St Served) (req : Request)
    (w : World St) (out : Served * World St) : Prop :=
  ∃ entries, entries ≡ₚ map_to_list (registry cfg) ∧ dispatch entries req cfg next w = out.

(** [Handler] *)
Definition Handler (next : Request -> M St Served) (opts : list (option_ St))
  : result (Request -> World St -> Served * World St -> Prop) :=
  match configure opts with
  | Err e => Err e
  | Ok cfg => Ok (serves cfg next)
  end.

End Dispatcher.

(** The pairs of a [Values], key by key. *)
Definition pairsOf (v : url.Values) (keys : list string) : list (string * string) :=
  flat_map (fun k => map (fun x => (k, x)) (url.lookupValues k v)) keys.

(** Option [opt] leaves the field [proj] of the configuration as it
    finds it. *)
Definition keeps {St A} (proj : settings St -> A) (opt : option_ St) : Prop :=
  ∀ c c', opt c = Ok c' -> proj c' = proj c.

(** What the authorization endpoint does with a request, by method. *)
Definition authzOutcome {St} (Parse : string -> result url.URL) (FormatSeconds : Z -> string)
    (req : Request) (cfg : config St) (w : World St) : Served * World St :=
  if String.eqb (Method req) "GET" || String.eqb (Method req) "POST" then
    let '(resp, w') := CreateGrant Parse FormatSeconds req cfg w in (Sent resp, w')
  else if String.eqb (Method req) "DELETE" then (Silent, w)
  else (Written StatusMethodNotAllowed "Method Not Allowed", w).

(** * A server on the in-memory provider *)
Module TestServer.

(** An option that installs the provider. The options of provider.go set
    the endpoints, the STS max age and the form; this one stands for the
    option that sets the provider. *)
Definition installProvider {St} (p : Provider St) : option_ St := fun c =>
  Ok {| authz := authz c; token := token c; revoke := revoke c; maxAge := maxAge c;
        form := form c; impl := Some p |}.

(** A template engine that takes every form. *)
Definition anyTemplate (text : string) : result string := Ok text.

(** No handler at the token endpoint. *)
Definition noTokenHandlers : gmap string (HandlerFn TestProvider.Store) := ∅.

(** The next handler answers 404. *)
Definition notFound : Request -> M TestProvider.Store Served :=
  fun _ => ret (Written 404 "404 page not found").

Definition opts : list (option_ TestProvider.Store) :=
  [SetAuthzForm anyTemplate "authzform"; installProvider TestProvider.NewProvider].

(** A request for [path] with method [method] and no parameters. *)
Definition at_ (method path : string) : Request :=
  {| Method := method;
     URL := {| url.Scheme := "https"; url.Opaque := ""; url.User := None;
               url.Host := "example.com"; url.Path := path; url.RawQuery := "";
               url.Fragment := "" |};
     Form := [] |}.

(** The parameters of a caller of [authCodeGrant1] that leaves
    [redirect_uri] out of the map. *)
Definition paramsWithoutRedirectURI : gmap string string :=
  <["scope" := "read write identity"]>
    (<["state" := "state-test"]>
       (<["response_type" := "code"]> (<["client_id" := "test_client_id"]> ∅))).

(** The form of the scenarios with a parameter that the endpoint does
    not know and a second value for [state]. *)
Definition crowded : url.Values :=
  [("debug", ["1"]);
   ("client_id", ["test_client_id"]);
   ("response_type", ["code"]);
   ("state", ["state-test"; "second"]);
   ("redirect_uri", ["https://example.com/cb"]);
   ("scope", ["read write identity"])].

End TestServer.

(** * Proofs *)

(** ** Strings and escaping *)

Lemma append_cons (x : ascii) (a b : string) : String x a ++ b = String x (a ++ b).
Proof. reflexivity. Qed.

Lemma append_nil_l (a : string) : "" ++ a = a.
Proof. reflexivity. Qed.

Lemma append_assoc (a b c : string) : (a ++ b) ++ c = a ++ (b ++ c).
Proof. induction a as [| x a IH]; [reflexivity |]. by rewrite !append_cons, IH. Qed.

Lemma append_nil_r (a : string) : a ++ "" = a.
Proof. induction a as [| x a IH]; [reflexivity |]. by rewrite append_cons, IH. Qed.

Lemma noneOf_app (p : ascii -> bool) (a b : string) :
  noneOf p (a ++ b) = noneOf p a && noneOf p b.
Proof.
  induction a as [| x a IH]; [reflexivity |].
  rewrite append_cons. cbn [noneOf]. rewrite IH. by destruct (p x).
Qed.

Lemma noneOf_weaken (p q : ascii -> bool) (s : string) :
  (∀ c, q c = true -> p c = true) -> noneOf p s = true -> noneOf q s = true.
Proof.
  intros Hpq. induction s as [| x s IH]; cbn; [done |].
  intros [Hx Hs]%andb_prop. rewrite (IH Hs), andb_true_r.
  destruct (q x) eqn:Hq; [| done]. apply Hpq in Hq. by rewrite Hq in Hx.
Qed.

(** Byte by byte, over the 256 bytes. *)
Ltac each_byte c := destruct c as [[] [] [] [] [] [] [] []].

Lemma escape_cons (c : ascii) (r : string) (mode : url.encoding) :
  url.escape (String c r) mode = url.escape (String c "") mode ++ url.escape r mode.
Proof.
  cbn [url.escape].
  destruct (url.isByte " " c && _); [reflexivity |].
  destruct (url.shouldEscape c mode); reflexivity.
Qed.

Lemma QueryEscape_byte_clean (c : ascii) :
  noneOf delimits (url.escape (String c "") url.encodeQueryComponent) = true.
Proof. each_byte c; reflexivity. Qed.

(** A query-escaped string holds none of [&], [;] and [=]. *)
Lemma QueryEscape_clean (s : string) : noneOf delimits (url.QueryEscape s) = true.
Proof.
  unfold url.QueryEscape. induction s as [| c s IH]; [reflexivity |].
  by rewrite escape_cons, noneOf_app, QueryEscape_byte_clean, IH.
Qed.

Lemma unescape_byte (mode : url.encoding) (c : ascii) (r t : string) :
  url.unescape r mode = Some t ->
  url.unescape (url.escape (String c "") mode ++ r) mode = Some (String c t).
Proof.
  intros H.
  destruct mode; each_byte c;
    match goal with
    | |- context [url.escape ?s ?m] => let e := eval vm_compute in (url.escape s m) in
                                       change (url.escape s m) with e
    end;
    rewrite ?append_cons, append_nil_l; cbn [url.unescape];
    match goal with
    | |- context [url.isByte "%" ?x] => let b := eval vm_compute in (url.isByte "%" x) in
                                        change (url.isByte "%" x) with b
    end;
    cbv iota; rewrite ?H; vm_compute; rewrite ?H; reflexivity.
Qed.

(** [unescape] undoes [escape], in each part of a URL. *)
Lemma unescape_escape (mode : url.encoding) (s : string) :
  url.unescape (url.escape s mode) mode = Some s.
Proof.
  induction s as [| c s IH]; [reflexivity |].
  rewrite escape_cons. by apply unescape_byte.
Qed.

Lemma QueryUnescape_QueryEscape (s : string) : url.QueryUnescape (url.QueryEscape s) = Some s.
Proof. apply unescape_escape. Qed.

(** Cutting [a ++ c ++ b] at the first [c], when [a] has none. *)
Lemma split_at (a b : string) (c : ascii) :
  noneOf (url.isByte c) a = true -> url.split (a ++ String c b) c true = (a, b).
Proof.
  induction a as [| x a IH]; [rewrite append_nil_l | rewrite append_cons]; cbn [url.split noneOf].
  - by rewrite Ascii.eqb_refl.
  - intros [Hx Ha]%andb_prop. unfold url.isByte in Hx.
    rewrite Ascii.eqb_sym in Hx. apply negb_true_iff in Hx. by rewrite Hx, (IH Ha).
Qed.

Lemma fields_single (sep : ascii -> bool) (a : string) :
  noneOf sep a = true -> url.fields sep a = [a].
Proof.
  induction a as [| x a IH]; cbn; [done |].
  intros [Hx Ha]%andb_prop. apply negb_true_iff in Hx. by rewrite Hx, (IH Ha).
Qed.

Lemma fields_cons (sep : ascii -> bool) (a b : string) (c : ascii) :
  noneOf sep a = true -> sep c = true ->
  url.fields sep (a ++ String c b) = a :: url.fields sep b.
Proof.
  intros Ha Hc.
  induction a as [| x a IH]; [rewrite append_nil_l | rewrite append_cons]; cbn [url.fields].
  - by rewrite Hc.
  - cbn in Ha. apply andb_prop in Ha as [Hx Ha]. apply negb_true_iff in Hx.
    by rewrite Hx, (IH Ha).
Qed.

Lemma encodePair_clean (kv : string * string) : noneOf separates (encodePair kv) = true.
Proof.
  unfold encodePair. rewrite !noneOf_app. cbn.
  assert (∀ s, noneOf separates (url.QueryEscape s) = true) as H.
  { intros s. apply (noneOf_weaken delimits); [| apply QueryEscape_clean].
    unfold delimits. intros c ->. reflexivity. }
  by rewrite !H.
Qed.

(** [parseQuery] reads an encoded pair back. *)
Lemma parsePair_encodePair (m : url.Values) (k v : string) :
  url.parsePair m (encodePair (k, v)) = url.Add k v m.
Proof.
  unfold url.parsePair, encodePair. cbn [fst snd].
  assert ((url.QueryEscape k ++ "=" ++ url.QueryEscape v =? "")%string = false) as ->
    by (by destruct (url.QueryEscape k)).
  change ("=" ++ url.QueryEscape v) with (String "=" (url.QueryEscape v)).
  rewrite split_at.
  - by rewrite !QueryUnescape_QueryEscape.
  - apply (noneOf_weaken delimits); [| apply QueryEscape_clean].
    unfold delimits. intros c ->. apply orb_true_r.
Qed.

Lemma fields_join (l : list (string * string)) :
  l ≠ [] -> url.fields separates (url.join "&" (map encodePair l)) = map encodePair l.
Proof.
  induction l as [| kv l IH]; [done |]. intros _.
  destruct l as [| kv' l].
  - cbn. apply fields_single, encodePair_clean.
  - change (url.join "&" (map encodePair (kv :: kv' :: l)))
      with (encodePair kv ++ String "&" (url.join "&" (map encodePair (kv' :: l)))).
    rewrite fields_cons; [| apply encodePair_clean | reflexivity].
    by rewrite IH.
Qed.

Lemma foldl_parsePair (l : list (string * string)) (m : url.Values) :
  foldl url.parsePair m (map encodePair l) = foldl (fun m kv => url.Add (fst kv) (snd kv) m) m l.
Proof.
  revert m. induction l as [| [k v] l IH]; intros m; [reflexivity |].
  cbn [map foldl]. by rewrite parsePair_encodePair, IH.
Qed.

(** [ParseQuery] reads back the pairs of an encoded query, in order. *)
Lemma ParseQuery_join (l : list (string * string)) :
  url.ParseQuery (url.join "&" (map encodePair l))
  = foldl (fun m kv => url.Add (fst kv) (snd kv) m) [] l.
Proof.
  unfold url.ParseQuery. destruct l as [| kv l]; [reflexivity |].
  change (fun c => url.isByte "&" c || url.isByte ";" c) with separates.
  rewrite fields_join; [| done]. apply foldl_parsePair.
Qed.

(** What [u.String()] adds for the fragment. *)
Lemma String_setFragment (f : string) (u : url.URL) :
  url.String_ (url.setFragment f u)
  = url.String_ (url.setFragment "" u)
    ++ (if url.nonEmpty f then "#" ++ url.escape f url.encodeFragment else "").
Proof.
  unfold url.String_, url.setFragment. cbn -[append url.escape url.nonEmpty].
  change (url.nonEmpty "") with false. cbn iota.
  rewrite append_nil_r.
  repeat (rewrite ?append_assoc; f_equal).
Qed.

(** Unfold a handler down to the Provider's transitions. *)
Ltac run_handler :=
  unfold CreateGrant, implicitGrant, authCodeGrant1, firstFailure, checkRedirect, checkParams,
         requestedURL, renderErrors, bind, invoke, ret, addrIsNil in *;
  cbn [fst snd store calls] in *.

(** Follow the handler along one branch after the other: case on a
    scrutinee that is not itself a case distinction. *)
Ltac case_scrutinee x :=
  lazymatch x with
  | context [match ?y with _ => _ end] => case_scrutinee y
  | _ => destruct x eqn:?
  end.

Ltac branches :=
  repeat match goal with
         | |- context [match ?x with _ => _ end] =>
             case_scrutinee x; cbn [fst snd store calls negb andb] in *
         end.

Lemma eqb_true (a b : string) : String.eqb a b = true -> a = b.
Proof. apply String.eqb_eq. Qed.

Lemma negb_eqb_false (a b : string) : negb (String.eqb a b) = false -> a = b.
Proof. intros H. apply String.eqb_eq. now destruct (String.eqb a b). Qed.

(** [CreateGrant] puts every name of [vars] in the map, with the form
    value of the request, which is empty for a parameter left out. *)
Lemma collectParams_lookup (req : Request) (k : string) :
  k ∈ vars -> collectParams req !! k = Some (FormValue req k).
Proof.
  unfold vars, collectParams. cbn [foldl]. intros Hk.
  repeat (apply elem_of_cons in Hk as [-> | Hk]); [by simplify_map_eq .. |].
  by apply elem_of_nil in Hk.
Qed.

Lemma collectParams_index (req : Request) (k : string) :
  k ∈ vars -> index (collectParams req) k = FormValue req k.
Proof. intros Hk. unfold index. by rewrite collectParams_lookup. Qed.

Lemma vars_client_id : "client_id" ∈ vars.
Proof. unfold vars. set_solver. Qed.
Lemma vars_state : "state" ∈ vars.
Proof. unfold vars. set_solver. Qed.
Lemma vars_redirect_uri : "redirect_uri" ∈ vars.
Proof. unfold vars. set_solver. Qed.
Lemma vars_scope : "scope" ∈ vars.
Proof. unfold vars. set_solver. Qed.
Lemma vars_response_type : "response_type" ∈ vars.
Proof. unfold vars. set_solver. Qed.

(** The calls since the start are the ones appended to the log, and none
    of them mints. *)
Ltac log_is_mint_free :=
  rewrite <- ?app_assoc; eexists; split;
  [reflexivity | cbn [app]; repeat (apply List.Forall_cons; [reflexivity |]); apply List.Forall_nil].

(** Read the parameters of [CreateGrant] as form values. *)
Ltac form_values :=
  rewrite ?(collectParams_index _ _ vars_client_id), ?(collectParams_index _ _ vars_state),
    ?(collectParams_index _ _ vars_scope), ?(collectParams_index _ _ vars_response_type),
    ?(collectParams_lookup _ _ vars_redirect_uri) in *.

Lemma eqb_false_ne (a b : string) : a ≠ b -> String.eqb a b = false.
Proof. apply String.eqb_neq. Qed.

Section HandlerFacts.

Context {St : Type}.
Variable Parse : string -> result url.URL.
Variable FormatSeconds : Z -> string.


Lemma snd_of {A} (f : St -> A * St) (s s' : St) (a : A) : f s = (a, s') -> s' = snd (f s).
Proof. intros ->. reflexivity. Qed.

(** Rewrite the store after a reading call back to the store before it. *)
Ltac frame_reads Hobs :=
  destruct Hobs as (Hauth & Hlogin & Hclient & Hscopes);
  repeat match goal with
         | H : IsUserAuthenticated _ ?s = (_, ?s') |- _ =>
             apply snd_of in H; subst s'; rewrite ?Hauth
         | H : LoginURL _ _ ?s = (_, ?s') |- _ =>
             apply snd_of in H; subst s'; rewrite ?Hlogin
         | H : ClientInfo _ _ ?s = (_, ?s') |- _ =>
             apply snd_of in H; subst s'; rewrite ?Hclient
         | H : ScopesInfo _ _ ?s = (_, ?s') |- _ =>
             apply snd_of in H; subst s'; rewrite ?Hscopes
         end;
  rewrite ?Hscopes, ?Hclient, ?Hlogin, ?Hauth.

(** C10. A GET never calls [GenAuthzCode] or [GenToken]: the calls it
    makes are among the session check, the login URL, the client lookup
    and the scope parse; it answers with a page (status 200) or a
    redirect (status 302); and whatever of the Provider's store its
    reading methods leave alone is left alone by the request. *)
Theorem get_only_reads {G} (obs : St -> G) (req : Request) (cfg : config St) (w : World St) :
  Method req = "GET" ->
  readsPreserve obs (provider cfg) ->
  let '(resp, w') := CreateGrant Parse FormatSeconds req cfg w in
  (∃ l, callsSince w w' l ∧ Forall (fun c => reads c = true ∧ mints c = false) l) ∧
  rendersOrRedirects resp ∧
  obs (store w') = obs (store w).
Proof.
  intros Hget Hobs. unfold callsSince. run_handler. rewrite Hget. cbn [String.eqb Ascii.eqb Bool.eqb].
  branches; try discriminate;
    (split; [rewrite <- ?app_assoc; eexists; split; [reflexivity | repeat constructor] |]);
    (split; [reflexivity |]);
    frame_reads Hobs; reflexivity.
Qed.

(** Run [CreateGrant] up to the checks of the redirection URI, for a
    request that gets there. *)
Ltac reach_redirect_checks H :=
  let Hauth := fresh "Hauth" in
  let Hid := fresh "Hid" in
  let Hclient := fresh "Hclient" in
  destruct H as (? & ? & Hauth & Hid & Hclient);
  run_handler; form_values;
  rewrite Hauth; cbn [negb fst snd store calls];
  rewrite (eqb_false_ne _ _ Hid); cbn [negb fst snd store calls];
  rewrite Hclient; cbn [negb fst snd store calls].

Lemma non_https_no_mint (req : Request) (cfg : config St) (w : World St) (u : url.URL) :
  Parse (FormValue req "redirect_uri") = Ok u ->
  url.Scheme u ≠ "https" ->
  noMint w (snd (CreateGrant Parse FormatSeconds req cfg w)).
Proof.
  intros Hparse Hscheme. apply eqb_false_ne in Hscheme.
  unfold noMint. run_handler. form_values. rewrite Hparse, Hscheme. cbn [negb].
  branches; log_is_mint_free.
Qed.

Lemma non_https_page (req : Request) (cfg : config St) (w : World St) (u : url.URL)
    (cinfo : types.Client) :
  Parse (FormValue req "redirect_uri") = Ok u ->
  url.Scheme u ≠ "https" ->
  reachesRedirectChecks cfg req w cinfo ->
  fst (CreateGrant Parse FormatSeconds req cfg w) = renderErrors cfg [ErrRedirectURLInvalid] ∧
  callsSince w (snd (CreateGrant Parse FormatSeconds req cfg w))
    [CallIsUserAuthenticated; CallClientInfo (FormValue req "client_id")].
Proof.
  intros Hparse Hscheme Hreach. apply eqb_false_ne in Hscheme. unfold callsSince.
  reach_redirect_checks Hreach. rewrite Hparse, Hscheme. cbn [negb fst snd calls].
  by rewrite <- app_assoc.
Qed.

(** C4, as the code has it. A request whose redirection URI parses to a
    scheme other than https makes no call to [GenAuthzCode] or
    [GenToken], whatever else it holds. When it gets as far as the checks
    of the redirection URI (the resource owner is logged in, [client_id]
    is there, the lookup gives a client), the answer is a page of status
    200 whose one error is the invalid-redirect error, of code
    access_denied, and the only Provider calls are the session check and
    the client lookup. *)
Theorem non_https_redirect_rejected (req : Request) (cfg : config St) (w : World St) (u : url.URL) :
  Parse (FormValue req "redirect_uri") = Ok u ->
  url.Scheme u ≠ "https" ->
  let '(resp, w') := CreateGrant Parse FormatSeconds req cfg w in
  noMint w w' ∧
  (∀ cinfo, reachesRedirectChecks cfg req w cinfo ->
     (∃ opts e,
        resp = HTML opts ∧
        render.Status opts = StatusOK ∧
        render.Template opts = authzForm cfg ∧
        Errors (render.Data opts) = [e] ∧
        Kind e = RedirectURLInvalid ∧
        Code e = "access_denied") ∧
     callsSince w w' [CallIsUserAuthenticated; CallClientInfo (FormValue req "client_id")]).
Proof.
  intros Hparse Hscheme.
  pose proof (non_https_no_mint req cfg w u Hparse Hscheme) as Hmint.
  pose proof (non_https_page req cfg w u) as Hpage.
  destruct (CreateGrant Parse FormatSeconds req cfg w) as [resp w'].
  split; [exact Hmint |].
  intros cinfo Hreach. destruct (Hpage cinfo Hparse Hscheme Hreach) as [Hresp Hcalls].
  cbn [fst snd] in Hresp, Hcalls. split; [| exact Hcalls].
  exists {| render.Status := StatusOK; render.Data := errorData [ErrRedirectURLInvalid];
            render.Template := authzForm cfg; render.STSMaxAge := 0 |}, ErrRedirectURLInvalid.
  split; [exact Hresp |]. repeat split.
Qed.

(** C3, as the code has it. A request that gets as far as the checks of
    the redirection URI, and whose redirection URI does not parse or is
    not written, once parsed, as the registered one, is answered with a
    page that carries an access_denied error; the only Provider calls are
    the session check and the client lookup, so nothing is minted. *)
Theorem redirect_mismatch_rejected (req : Request) (cfg : config St) (w : World St)
    (cinfo : types.Client) :
  reachesRedirectChecks cfg req w cinfo ->
  redirectDiffers Parse (FormValue req "redirect_uri") (types.RedirectURL cinfo) ->
  let '(resp, w') := CreateGrant Parse FormatSeconds req cfg w in
  (∃ e, resp = renderErrors cfg [e] ∧ Code e = "access_denied") ∧
  callsSince w w' [CallIsUserAuthenticated; CallClientInfo (FormValue req "client_id")] ∧
  noMint w w'.
Proof.
  intros Hreach Hdiff. unfold redirectDiffers, callsSince, noMint in *.
  reach_redirect_checks Hreach.
  destruct (Parse (FormValue req "redirect_uri")) as [u | err]; cbn [negb fst snd store calls].
  - destruct (String.eqb (url.Scheme u) "https"); cbn [negb].
    + rewrite (eqb_false_ne _ _ Hdiff). cbn [negb].
      split; [by exists ErrRedirectURLMismatch |].
      split; [by rewrite <- app_assoc | log_is_mint_free].
    + split; [by exists ErrRedirectURLInvalid |].
      split; [by rewrite <- app_assoc | log_is_mint_free].
  - split; [by exists ErrRedirectURLInvalid |].
    split; [by rewrite <- app_assoc | log_is_mint_free].
Qed.

(** C7, as the code has it. [CreateGrant] enters every parameter in the
    map it hands to [authCodeGrant1], an omitted one as the empty string;
    the registered URI is therefore never taken in place of an omitted
    [redirect_uri]: the empty string is parsed instead, and the request is
    answered with the invalid-redirect page. *)
Theorem omitted_redirect_uri_rejected (req : Request) (cfg : config St) (w : World St)
    (cinfo : types.Client) :
  reachesRedirectChecks cfg req w cinfo ->
  url.lookupValues "redirect_uri" (Form req) = [] ->
  emptyIsNotHTTPS Parse ->
  collectParams req !! "redirect_uri" = Some "" ∧
  fst (CreateGrant Parse FormatSeconds req cfg w) = renderErrors cfg [ErrRedirectURLInvalid].
Proof.
  intros Hreach Homit Hempty. unfold emptyIsNotHTTPS in Hempty.
  assert (FormValue req "redirect_uri" = "") as Hraw
    by (unfold FormValue, url.Get; by rewrite Homit).
  split; [by rewrite (collectParams_lookup _ _ vars_redirect_uri), Hraw |].
  reach_redirect_checks Hreach. rewrite Hraw.
  destruct (Parse "") as [u | err]; [| reflexivity].
  by rewrite (eqb_false_ne _ _ Hempty).
Qed.

(** C8, as the code has it. When [state] is missing, or [scope] is
    missing from a request with a state and a supported response type,
    the answer is a 302 redirect whose location is the registered URI as
    it stands: what [EncodeErrInURI] writes goes to the [Values] that
    [redirectURL.Query()] made, and not to the URL. *)
Theorem missing_parameter_redirect_is_bare (req : Request) (cfg : config St) (w : World St)
    (cinfo : types.Client) (u : url.URL) :
  reachesRedirectChecks cfg req w cinfo ->
  Parse (FormValue req "redirect_uri") = Ok u ->
  url.Scheme u = "https" ->
  url.String_ u = url.String_ (types.RedirectURL cinfo) ->
  FormValue req "state" = "" ∨
  (FormValue req "state" ≠ "" ∧
   (FormValue req "response_type" = "code" ∨ FormValue req "response_type" = "token") ∧
   FormValue req "scope" = "") ->
  fst (CreateGrant Parse FormatSeconds req cfg w)
  = Redirect (url.String_ (types.RedirectURL cinfo)) StatusFound.
Proof.
  intros Hreach Hparse Hscheme Hsame Hmissing.
  reach_redirect_checks Hreach. rewrite Hparse, Hscheme, Hsame, !String.eqb_refl.
  cbn [negb fst].
  destruct Hmissing as [-> | (Hstate & Htype & ->)]; [reflexivity |].
  rewrite (eqb_false_ne _ _ Hstate). by destruct Htype as [-> | ->].
Qed.

(** C9, as the code has it. No answer of [CreateGrant] carries the
    client-not-found error, whatever the Provider says of the client. *)
Theorem client_not_found_never_reported (req : Request) (cfg : config St) (w : World St) :
  match fst (CreateGrant Parse FormatSeconds req cfg w) with
  | HTML opts => Forall (fun e => Kind e ≠ ClientIDNotFound) (Errors (render.Data opts))
  | Redirect _ _ => True
  end.
Proof.
  run_handler. branches; try exact I;
    cbn [render.Data Errors errorData]; repeat (apply List.Forall_cons; [discriminate |]);
    apply List.Forall_nil.
Qed.

(** A failed lookup, for its part, is reported as a server error. *)
Lemma client_lookup_error_reported (req : Request) (cfg : config St) (w : World St)
    (s1 s2 : St) (err : error) :
  IsUserAuthenticated (provider cfg) (store w) = (true, s1) ->
  FormValue req "client_id" ≠ "" ->
  ClientInfo (provider cfg) (FormValue req "client_id") s1 = (Err err, s2) ->
  fst (CreateGrant Parse FormatSeconds req cfg w) = renderErrors cfg [ErrServerError "" err].
Proof.
  intros Hauth Hid Hclient. run_handler. form_values.
  rewrite Hauth. cbn [negb fst snd store calls].
  rewrite (eqb_false_ne _ _ Hid). cbn [negb fst snd store calls].
  by rewrite Hclient.
Qed.

(** The query that [implicitGrant] encodes: its five pairs, by key. *)
Lemma Encode_implicit (token : types.Token) (state : string) :
  url.Encode
    (url.Set_ "state" state
       (url.Set_ "scope" (StringifyScopes (types.Scope_ token))
          (url.Set_ "expires_in" (FormatSeconds (types.ExpiresIn token))
             (url.Set_ "token_type" (types.Type_ token)
                (url.Set_ "access_token" (types.Value token) [])))))
  = url.join "&" (map encodePair (implicitPairs FormatSeconds token state)).
Proof. reflexivity. Qed.

(** C6. The location that [implicitGrant] redirects to ends in a
    fragment which, unescaped and without the [#] at its head (as the
    test of the implicit flow reads it), is an encoded query that reads
    back as exactly the keys access_token, expires_in, scope, state and
    token_type, one value each; there is no refresh_token among them,
    whatever the token of the Provider holds. When [GenToken] fails, the
    registered URI is redirected to as it is. *)
Theorem implicit_fragment_has_no_refresh_token (req : Request) (cfg : config St)
    (authzData : AuthzData) (w : World St) :
  let u := types.RedirectURL (Client authzData) in
  match GenToken (provider cfg) types.AccessToken (Scopes authzData) (Client authzData) (store w) with
  | (Ok token, _) =>
      ∃ wire encoded,
        fst (implicitGrant FormatSeconds req cfg authzData w)
        = Redirect (url.String_ (url.setFragment "" u) ++ "#" ++ wire) StatusFound ∧
        url.unescape wire url.encodeFragment = Some ("#" ++ encoded) ∧
        url.ParseQuery encoded
        = map (fun kv => (fst kv, [snd kv])) (implicitPairs FormatSeconds token (State authzData)) ∧
        map fst (url.ParseQuery encoded)
        = ["access_token"; "expires_in"; "scope"; "state"; "token_type"] ∧
        url.lookupValues "refresh_token" (url.ParseQuery encoded) = []
  | (Err _, _) =>
      fst (implicitGrant FormatSeconds req cfg authzData w) = Redirect (url.String_ u) StatusFound
  end.
Proof.
  run_handler.
  destruct (GenToken _ _ _ _ _) as [[token | err] s']; cbn [fst]; [| reflexivity].
  rewrite String_setFragment.
  eexists _, _. split; [reflexivity |]. split; [apply unescape_escape |].
  rewrite Encode_implicit, ParseQuery_join. repeat split.
Qed.

(** C5, as the code has it. In the location of a successful implicit
    grant, the [#] that opens the fragment is followed by [%23], the
    escaped [#] that [implicitGrant] put at the head of the fragment, and
    by the encoded pairs escaped once more. *)
Theorem implicit_location_escapes_hash (req : Request) (cfg : config St)
    (authzData : AuthzData) (w : World St) (token : types.Token) (s' : St) :
  GenToken (provider cfg) types.AccessToken (Scopes authzData) (Client authzData) (store w)
  = (Ok token, s') ->
  fst (implicitGrant FormatSeconds req cfg authzData w)
  = Redirect
      (url.String_ (url.setFragment "" (types.RedirectURL (Client authzData)))
       ++ "#%23"
       ++ url.escape (url.join "&" (map encodePair (implicitPairs FormatSeconds token (State authzData))))
                     url.encodeFragment)
      StatusFound.
Proof.
  intros Htoken. run_handler. rewrite Htoken. cbn [fst].
  rewrite Encode_implicit, String_setFragment. reflexivity.
Qed.

(** A consent submission with [response_type=token] that passes the
    validation is handed to [implicitGrant]. *)
Lemma CreateGrant_implicit (req : Request) (cfg : config St) (w w1 : World St) (s1 : St)
    (authzData : AuthzData) :
  IsUserAuthenticated (provider cfg) (store w) = (true, s1) ->
  authCodeGrant1 Parse req cfg (collectParams req)
    {| store := s1; calls := calls w ++ [CallIsUserAuthenticated] |} = (inr authzData, w1) ->
  Method req ≠ "GET" ->
  FormValue req "response_type" = "token" ->
  CreateGrant Parse FormatSeconds req cfg w = implicitGrant FormatSeconds req cfg authzData w1.
Proof.
  intros Hauth Hvalid Hmethod Htype.
  unfold CreateGrant, bind, invoke. rewrite Hauth. cbn [negb].
  rewrite Hvalid, (eqb_false_ne _ _ Hmethod).
  by rewrite (collectParams_index _ _ vars_response_type), Htype.
Qed.

End HandlerFacts.

(** ** The token endpoint *)

Section TokenEndpointFacts.

Import TokenEndpoint.

Lemma wellFormed_insert (c : nat) (g : Grant.t) (s s' : Store) :
  wellFormed s -> grants s' = <[c := g]> (grants s) -> (c < next s')%nat ->
  (next s <= next s')%nat -> wellFormed s'.
Proof.
  intros Hwf Hg Hc Hn c' g'. rewrite Hg, lookup_insert.
  case_decide; [intros _; by subst |]. intros Hold%Hwf. lia.
Qed.

Lemma redeemable_issued (g : Grant.t) (rq : TokenRequest) :
  redeemable g rq = true -> Grant.issued g = true.
Proof. unfold redeemable. by intros [[[? _]%andb_prop _]%andb_prop _]%andb_prop. Qed.

(** One request: what it adds to the exchanges of [c], it takes from the
    budget of [c]. *)
Lemma step_budget (c : nat) (op : Op) (s : Store) :
  wellFormed s ->
  ((if exchanged c (op, fst (step op s)) then 1 else 0) + budget c (snd (step op s))
   <= budget c s)%nat ∧
  wellFormed (snd (step op s)).
Proof.
  intros Hwf. destruct op as [cl ru ex | rq | r | t]; cbn [step]; unfold invalid_grant.
  - (* a new grant: its code is new *)
    cbn [genAuthzCode fst snd exchanged]. split.
    + destruct (decide (next s = c)) as [<- | Hne].
      * unfold budget at 1. cbn [grants]. rewrite lookup_insert_eq. cbn.
        unfold budget. destruct (grants s !! next s) as [g |] eqn:Hg; [| lia].
        apply Hwf in Hg. lia.
      * unfold budget. cbn [grants]. rewrite lookup_insert_ne by done. lia.
    + eapply wellFormed_insert; [exact Hwf | reflexivity | cbn; lia | cbn; lia].
  - (* an exchange *)
    unfold issueToken, invalid_grant.
    destruct (grants s !! code rq) as [g |] eqn:Hg; [| cbn; split; [lia | done]].
    pose proof (Hwf _ _ Hg) as Hlt.
    destruct (redeemable g rq) eqn:Hr.
    + assert (((if (code rq =? c)%nat then 1 else 0)
               + budget c {| grants := <[code rq := Grant.setState Grant.REDEEMED g]> (grants s);
                             tokens := tokens s; next := next s |} <= budget c s)%nat) as Hb.
      { destruct (Nat.eqb_spec (code rq) c) as [<- | Hne].
        - unfold budget. cbn [grants]. rewrite lookup_insert_eq, Hg.
          rewrite (redeemable_issued _ _ Hr). cbn. lia.
        - unfold budget. cbn [grants]. rewrite lookup_insert_ne by done. lia. }
      destruct (wantRefresh rq); cbn [fst snd exchanged]; (split;
        [unfold budget in *; cbn [grants] in *; exact Hb
        | eapply wellFormed_insert; [exact Hwf | reflexivity | cbn; lia | cbn; lia]]).
    + cbn [fst snd exchanged]. split.
      * destruct (decide (code rq = c)) as [<- | Hne].
        -- unfold budget at 1. cbn [grants]. rewrite lookup_insert_eq.
           cbn [Grant.issued Grant.setState Grant.state]. lia.
        -- unfold budget. cbn [grants]. rewrite lookup_insert_ne by done. lia.
      * eapply wellFormed_insert; [exact Hwf | reflexivity | cbn; lia | cbn; lia].
  - (* a refresh: the grants stay *)
    unfold refreshToken, invalid_grant.
    destruct (tokens s !! r) as [[[] [] o] |]; cbn [fst snd exchanged];
      (split; [unfold budget; cbn [grants]; lia |]);
      try exact Hwf; intros c' g' Hc%Hwf; cbn; lia.
  - (* a revocation: the grants stay *)
    cbn [revokeToken fst snd exchanged]. split; [unfold budget; cbn [grants]; lia |].
    exact Hwf.
Qed.

Lemma exec_budget (c : nat) (ops : list Op) (s : Store) :
  wellFormed s ->
  (successes c (fst (exec ops s)) + budget c (snd (exec ops s)) <= budget c s)%nat.
Proof.
  revert s. induction ops as [| op ops IH]; intros s Hwf; [cbn; lia |].
  cbn [exec]. destruct (step_budget c op s Hwf) as [Hstep Hwf'].
  destruct (step op s) as [r s']. cbn [fst snd] in *.
  specialize (IH s' Hwf'). destruct (exec ops s') as [trace s'']. cbn [fst snd] in *.
  unfold successes in *. cbn [List.filter].
  destruct (exchanged c (op, r)); cbn [length]; lia.
Qed.

Lemma cascadeRevoke_spec (c t : nat) (tok : Token.t) (ts : gmap nat Token.t) :
  cascadeRevoke c ts !! t = Some tok -> Token.origin tok = Some c ->
  Token.state tok = Token.REVOKED.
Proof.
  unfold cascadeRevoke. rewrite lookup_fmap.
  destruct (ts !! t) as [tok' |]; [| done]. cbn. intros [= <-].
  by case_decide.
Qed.

(** A code that is no longer ISSUED is refused, and the refusal revokes
    what came from it. *)
Lemma spent_code_refused (rq : TokenRequest) (s : Store) :
  budget (code rq) s = 0%nat ->
  fst (issueToken rq s) = invalid_grant ∧
  descendantsRevoked (code rq) (snd (issueToken rq s)).
Proof.
  unfold budget, issueToken. destruct (grants s !! code rq) as [g |]; [| done].
  destruct (Grant.issued g) eqn:Hi; [done |]. intros _.
  unfold redeemable. rewrite Hi. cbn [andb fst snd].
  split; [reflexivity |]. intros t tok. apply cascadeRevoke_spec.
Qed.

(** C2. In every run of the token endpoint and the store behind it, from
    the empty store, a code is exchanged at most once; and once it has
    been exchanged, presenting it again answers [invalid_grant] and
    leaves every token issued from it revoked. *)
Theorem one_shot_grant (c : nat) (ops : list Op) :
  let '(trace, s) := exec ops empty in
  (successes c trace <= 1)%nat ∧
  (successes c trace = 1%nat ->
   ∀ rq, code rq = c ->
     fst (issueToken rq s) = invalid_grant ∧ descendantsRevoked c (snd (issueToken rq s))).
Proof.
  assert (wellFormed empty) as Hwf by (intros c' g'; cbn; by rewrite lookup_empty).
  pose proof (exec_budget c ops empty Hwf) as Hb.
  destruct (exec ops empty) as [trace s]. cbn [fst snd] in Hb.
  assert (budget c empty = 1%nat) as He by (unfold budget; cbn; by rewrite lookup_empty).
  split; [lia |].
  intros Hone rq <-. apply spent_code_refused. lia.
Qed.

End TokenEndpointFacts.

(** * The scenarios of section 8, run on the in-memory provider *)

Section Scenarios.

Import TestProvider.

Lemma loggedIn_reaches (form : url.Values) :
  url.Get "client_id" form = "test_client_id" ->
  reachesRedirectChecks cfg (request "POST" form) loggedIn client.
Proof.
  intros Hid. exists (store loggedIn), (store loggedIn). unfold FormValue. cbn [Form request].
  rewrite Hid. repeat split. discriminate.
Defined.

Lemma loggedIn_reaches_GET (form : url.Values) :
  url.Get "client_id" form = "test_client_id" ->
  reachesRedirectChecks cfg (request "GET" form) loggedIn client.
Proof.
  intros Hid. exists (store loggedIn), (store loggedIn). unfold FormValue. cbn [Form request].
  rewrite Hid. repeat split. discriminate.
Defined.

(** S1: the consent form, then the code in the query. *)
Example authorization_code_happy_path :
  fst (run (request "GET" (consent "code" "https://example.com/cb")) loggedIn)
  = HTML {| render.Status := 200; render.Data := validated "code";
            render.Template := "authzform"; render.STSMaxAge := 31536000 * 10 ^ 9 |} ∧
  fst (run (request "POST" (consent "code" "https://example.com/cb")) loggedIn)
  = Redirect "https://example.com/cb?code=code&state=state-test" 302.
Proof. split; reflexivity. Qed.

(** S2: no session, so to the login page, with the URL of the request as
    referer. *)
Example login_redirect :
  let req := request "GET" (consent "code" "https://example.com/cb") in
  fst (run req loggedOut)
  = Redirect (fst (LoginURL NewProvider (url.String_ (URL req)) (store loggedOut))) 302 ∧
  url.String_ (URL req)
  = "https://example.com/oauth2/authzs?client_id=test_client_id&redirect_uri=https%3A%2F%2Fexample.com%2Fcb&response_type=code&scope=read+write+identity&state=state-test".
Proof. split; reflexivity. Qed.

(** S5: another host in [redirect_uri]. *)
Example redirect_uri_swap :
  fst (run (request "POST" (consent "code" "https://attacker.com/callback")) loggedIn)
  = renderErrors cfg [ErrRedirectURLMismatch] ∧
  snd (run (request "POST" (consent "code" "https://attacker.com/callback")) loggedIn)
  = {| store := store loggedIn;
       calls := [CallIsUserAuthenticated; CallClientInfo "test_client_id"] |}.
Proof. split; reflexivity. Qed.

(** C3, as stated, fails: a [redirect_uri] whose scheme is written in
    capitals is not byte-equal to the registered URI, and yet the consent
    submission is accepted: a grant code is minted and the answer is the
    302 redirect that carries it. *)
Lemma redirect_uri_not_byte_equal_accepted :
  let req := request "POST" (consent "code" "HTTPS://example.com/cb") in
  reachesRedirectChecks cfg req loggedIn client ∧
  FormValue req "redirect_uri" ≠ url.String_ (types.RedirectURL client) ∧
  fst (run req loggedIn) = Redirect "https://example.com/cb?code=code&state=state-test" StatusFound ∧
  calls (snd (run req loggedIn))
  = [CallIsUserAuthenticated; CallClientInfo "test_client_id";
     CallScopesInfo "read write identity"; CallGenAuthzCode client scopes] ∧
  codes (store (snd (run req loggedIn))) = ["code"].
Proof.
  split; [by apply loggedIn_reaches |].
  split; [discriminate |].
  repeat split.
Qed.

Lemma redirect_mismatch_rejected_witness :
  let req := request "POST" (consent "code" "https://attacker.com/callback") in
  reachesRedirectChecks cfg req loggedIn client ∧
  redirectDiffers url.Parse (FormValue req "redirect_uri") (types.RedirectURL client) ∧
  let '(resp, w') := run req loggedIn in
  (∃ e, resp = renderErrors cfg [e] ∧ Code e = "access_denied") ∧
  callsSince loggedIn w' [CallIsUserAuthenticated; CallClientInfo (FormValue req "client_id")] ∧
  noMint loggedIn w'.
Proof.
  intros req.
  assert (reachesRedirectChecks cfg req loggedIn client) as Hreach by (by apply loggedIn_reaches).
  assert (redirectDiffers url.Parse (FormValue req "redirect_uri") (types.RedirectURL client))
    as Hdiff by (vm_compute; discriminate).
  split; [exact Hreach |]. split; [exact Hdiff |].
  exact (redirect_mismatch_rejected url.Parse wholeSeconds req cfg loggedIn client Hreach Hdiff).
Defined.

(** C4, as stated, fails: a request over plain http that names no client
    is answered with the page of the missing [client_id], whose code is
    invalid_request, and the same request from a resource owner who is
    not logged in is sent to the login page, with no page at all. *)
Lemma non_https_redirect_not_access_denied :
  let form := [("response_type", ["code"]); ("state", ["state-test"]);
               ("redirect_uri", ["http://attacker.com/callback"]);
               ("scope", ["read write identity"])] in
  let req := request "GET" form in
  (∃ u, url.Parse (FormValue req "redirect_uri") = Ok u ∧ url.Scheme u ≠ "https") ∧
  (∃ opts,
     fst (run req loggedIn) = HTML opts ∧
     Errors (render.Data opts) = [ErrClientIDMissing] ∧
     Code ErrClientIDMissing = "invalid_request" ∧
     Forall (fun e => Code e ≠ "access_denied") (Errors (render.Data opts))) ∧
  fst (run req loggedOut)
  = Redirect (fst (LoginURL NewProvider (url.String_ (URL req)) (store loggedOut))) StatusFound.
Proof.
  intros form req. split; [| split].
  - eexists. split; [reflexivity | discriminate].
  - eexists. split; [reflexivity |]. split; [reflexivity |]. split; [reflexivity |].
    apply List.Forall_cons; [discriminate | apply List.Forall_nil].
  - reflexivity.
Qed.

Lemma non_https_redirect_rejected_witness :
  let req := request "GET" (consent "code" "http://attacker.com/callback") in
  let u := {| url.Scheme := "http"; url.Opaque := ""; url.User := None; url.Host := "attacker.com";
              url.Path := "/callback"; url.RawQuery := ""; url.Fragment := "" |} in
  url.Parse (FormValue req "redirect_uri") = Ok u ∧
  url.Scheme u ≠ "https" ∧
  reachesRedirectChecks cfg req loggedIn client ∧
  noMint loggedIn (snd (run req loggedIn)) ∧
  (∃ opts e,
     fst (run req loggedIn) = HTML opts ∧
     render.Status opts = StatusOK ∧
     render.Template opts = authzForm cfg ∧
     Errors (render.Data opts) = [e] ∧
     Kind e = RedirectURLInvalid ∧
     Code e = "access_denied") ∧
  callsSince loggedIn (snd (run req loggedIn))
    [CallIsUserAuthenticated; CallClientInfo "test_client_id"].
Proof.
  intros req u.
  assert (url.Parse (FormValue req "redirect_uri") = Ok u) as Hparse by reflexivity.
  assert (url.Scheme u ≠ "https") as Hscheme by discriminate.
  assert (reachesRedirectChecks cfg req loggedIn client) as Hreach
    by (by apply loggedIn_reaches_GET).
  pose proof (non_https_redirect_rejected url.Parse wholeSeconds req cfg loggedIn u Hparse Hscheme)
    as H.
  change (CreateGrant url.Parse wholeSeconds req cfg loggedIn) with (run req loggedIn) in H.
  destruct (run req loggedIn) as [resp w']. destruct H as [Hmint H].
  destruct (H client Hreach) as (Hpage & Hcalls).
  repeat (split; [assumption |]). exact Hcalls.
Defined.

Lemma implicit_location_escapes_hash_witness :
  let req := request "POST" (consent "token" "https://example.com/cb") in
  let token := {| types.Value := "token"; types.Type_ := "bearer"; types.ExpiresIn := 600 * 10 ^ 9;
                  types.Scope_ := scopes; types.Refresh := "" |} in
  let w := {| store := store loggedIn; calls := [] |} in
  GenToken NewProvider types.AccessToken scopes client (store w)
  = (Ok token, {| session := true; codes := []; tokens := ["token"] |}) ∧
  fst (implicitGrant wholeSeconds req cfg (validated "token") w)
  = Redirect
      "https://example.com/cb#%23access_token=token&expires_in=600&scope=read+write+identity&state=state-test&token_type=bearer"
      StatusFound ∧
  fst (run req loggedIn) = fst (implicitGrant wholeSeconds req cfg (validated "token") w).
Proof.
  intros req token w.
  assert (GenToken NewProvider types.AccessToken scopes client (store w)
          = (Ok token, {| session := true; codes := []; tokens := ["token"] |})) as Htoken
    by reflexivity.
  split; [exact Htoken |]. split; [| reflexivity].
  exact (implicit_location_escapes_hash wholeSeconds req cfg (validated "token") w token _ Htoken).
Defined.

(** What the claim has in place of that location. *)
Example implicit_location_expected :
  fst (run (request "POST" (consent "token" "https://example.com/cb")) loggedIn)
  ≠ Redirect
      "https://example.com/cb#access_token=token&expires_in=600&scope=read+write+identity&state=state-test&token_type=bearer"
      StatusFound.
Proof. discriminate. Qed.

Lemma omitted_redirect_uri_rejected_witness :
  let req := request "GET" withoutRedirectURI in
  reachesRedirectChecks cfg req loggedIn client ∧
  url.lookupValues "redirect_uri" (Form req) = [] ∧
  emptyIsNotHTTPS url.Parse ∧
  collectParams req !! "redirect_uri" = Some "" ∧
  fst (run req loggedIn) = renderErrors cfg [ErrRedirectURLInvalid].
Proof.
  intros req.
  assert (reachesRedirectChecks cfg req loggedIn client) as Hreach
    by (by apply loggedIn_reaches_GET).
  assert (url.lookupValues "redirect_uri" (Form req) = []) as Homit by reflexivity.
  assert (emptyIsNotHTTPS url.Parse) as Hempty by (vm_compute; discriminate).
  split; [exact Hreach |]. split; [exact Homit |]. split; [exact Hempty |].
  exact (omitted_redirect_uri_rejected url.Parse wholeSeconds req cfg loggedIn client
           Hreach Homit Hempty).
Defined.

(** With the registered URI spelled out, the same request is served. *)
Example supplied_redirect_uri_accepted :
  fst (run (request "GET" (consent "code" "https://example.com/cb")) loggedIn)
  ≠ renderErrors cfg [ErrRedirectURLInvalid].
Proof. discriminate. Qed.

Lemma missing_parameter_redirect_is_bare_witness :
  let req := request "GET" withoutState in
  reachesRedirectChecks cfg req loggedIn client ∧
  url.Parse (FormValue req "redirect_uri") = Ok registered ∧
  url.Scheme registered = "https" ∧
  FormValue req "state" = "" ∧
  fst (run req loggedIn) = Redirect "https://example.com/cb" StatusFound.
Proof.
  intros req.
  assert (reachesRedirectChecks cfg req loggedIn client) as Hreach
    by (by apply loggedIn_reaches_GET).
  assert (url.Parse (FormValue req "redirect_uri") = Ok registered) as Hparse by reflexivity.
  assert (FormValue req "state" = "") as Hstate by reflexivity.
  split; [exact Hreach |]. split; [exact Hparse |]. split; [reflexivity |].
  split; [exact Hstate |].
  exact (missing_parameter_redirect_is_bare url.Parse wholeSeconds req cfg loggedIn client
           registered Hreach Hparse eq_refl eq_refl (or_introl Hstate)).
Defined.

(** S7, as the tests of the endpoint expect it: the error in the query of
    the location. The handler computes these values and drops them. *)
Example missing_state_expected :
  url.Encode (EncodeErrInURI (url.Query registered) (ErrStateRequired ""))
  = "error=invalid_request&error_description=state+parameter+is+required+by+this+authorization+server.&state=" ∧
  url.Get "error" (url.Query registered) = "" ∧
  fst (run (request "GET" withoutState) loggedIn) = Redirect "https://example.com/cb" 302 ∧
  fst (run (request "GET" withoutScope) loggedIn) = Redirect "https://example.com/cb" 302.
Proof. repeat split. Qed.

(** A client that the registry does not know: the Provider hands back the
    zero client, and the page reports the redirection URI. *)
Example unknown_client_not_reported :
  ClientInfo NewProvider "nobody" (store loggedIn) = (Ok types.zeroClient, store loggedIn) ∧
  fst (run (request "GET" unknownClient) loggedIn) = renderErrors cfg [ErrRedirectURLInvalid].
Proof. split; reflexivity. Qed.

Lemma get_only_reads_witness :
  let req := request "GET" (consent "code" "https://example.com/cb") in
  let obs := fun s : Store => (codes s, tokens s) in
  Method req = "GET" ∧
  readsPreserve obs (provider cfg) ∧
  let '(resp, w') := run req loggedIn in
  (∃ l, callsSince loggedIn w' l ∧ Forall (fun c => reads c = true ∧ mints c = false) l) ∧
  rendersOrRedirects resp ∧
  obs (store w') = obs (store loggedIn).
Proof.
  intros req obs.
  assert (Method req = "GET") as Hget by reflexivity.
  assert (readsPreserve obs (provider cfg)) as Hobs by (repeat split).
  split; [exact Hget |]. split; [exact Hobs |].
  exact (get_only_reads url.Parse wholeSeconds obs req cfg loggedIn Hget Hobs).
Defined.

End Scenarios.

(** S4: the code is exchanged once; the second time it is refused and
    the two tokens of the first exchange are revoked. *)
Section Replay.

Import TokenEndpoint.

Lemma one_shot_grant_witness :
  successes 0 (fst (exec firstExchange empty)) = 1%nat ∧
  fst (exec firstExchange empty)
  = [(OpGenAuthzCode "test_client_id" "https://example.com/cb" 600, Granted 0);
     (OpIssueToken exchange, Issued 1 (Some 2%nat))] ∧
  fst (issueToken exchange (snd (exec firstExchange empty))) = invalid_grant ∧
  descendantsRevoked 0 (snd (issueToken exchange (snd (exec firstExchange empty)))).
Proof.
  assert (successes 0 (fst (exec firstExchange empty)) = 1%nat) as Hone by reflexivity.
  split; [exact Hone |]. split; [reflexivity |].
  pose proof (one_shot_grant 0 firstExchange) as H.
  destruct (exec firstExchange empty) as [trace s]. cbn [fst snd] in *.
  destruct H as [_ H]. exact (H Hone exchange eq_refl).
Defined.

End Replay.

(** ** More of the authorization endpoint *)

Section EndpointFacts.

Context {St : Type}.
Variable Parse : string -> result url.URL.
Variable FormatSeconds : Z -> string.

(** X1. Without a session, [CreateGrant] asks the Provider for the login
    URL of the request's URL and redirects there; it makes no other call,
    and looks at no parameter. *)
Theorem unauthenticated_goes_to_login (req : Request) (cfg : config St) (w : World St) (s1 : St) :
  IsUserAuthenticated (provider cfg) (store w) = (false, s1) ->
  CreateGrant Parse FormatSeconds req cfg w
  = (Redirect (fst (LoginURL (provider cfg) (url.String_ (URL req)) s1)) StatusFound,
     {| store := snd (LoginURL (provider cfg) (url.String_ (URL req)) s1);
        calls := calls w ++ [CallIsUserAuthenticated; CallLoginURL (url.String_ (URL req))] |}).
Proof.
  intros Hauth. run_handler. rewrite Hauth. cbn [negb fst snd store calls].
  destruct (LoginURL _ _ _) as [loginURL s2]. cbn [fst snd]. by rewrite <- app_assoc.
Qed.

(** What [authCodeGrant1] hands back as validated. *)
Lemma authCodeGrant1_validated (req : Request) (cfg : config St)
    (params : gmap string string) (w : World St) :
  match authCodeGrant1 Parse req cfg params w with
  | (inr data, w') =>
      index params "client_id" ≠ "" ∧
      ClientInfo (provider cfg) (index params "client_id") (store w)
      = (Ok (Client data), snd (ClientInfo (provider cfg) (index params "client_id") (store w))) ∧
      (∃ u, requestedURL Parse params (Client data) = Ok u ∧
            url.Scheme u = "https" ∧
            url.String_ u = url.String_ (types.RedirectURL (Client data))) ∧
      State data = index params "state" ∧ State data ≠ "" ∧
      GrantType data = index params "response_type" ∧
      (GrantType data = "code" ∨ GrantType data = "token") ∧
      index params "scope" ≠ "" ∧
      ScopesInfo (provider cfg) (index params "scope")
        (snd (ClientInfo (provider cfg) (index params "client_id") (store w)))
      = (Ok (Scopes data), store w') ∧
      Errors data = [] ∧
      callsSince w w' [CallClientInfo (index params "client_id");
                       CallScopesInfo (index params "scope")]
  | (inl _, _) => True
  end.
Proof.
  unfold callsSince. run_handler. branches; try exact I;
    cbn [Client Scopes Errors GrantType State];
    repeat match goal with
           | H : String.eqb _ _ = false |- _ => apply String.eqb_neq in H
           | H : negb (String.eqb _ _) = false |- _ => apply negb_eqb_false in H
           | H : negb _ && negb _ = false |- _ =>
               apply andb_false_iff in H as [H | H]; apply negb_eqb_false in H
           end;
    unfold requestedURL;
    repeat match goal with H : params !! _ = _ |- _ => rewrite H end;
    repeat split; try assumption; try (by rewrite <- app_assoc); eauto.
Qed.

(** X2. What [authCodeGrant1] hands back as validated is complete: the
    client is the Provider's answer for a non-empty [client_id], the
    redirection URI of the request has scheme https and is written as
    the registered one, state, response type and scope are there, the
    response type is code or token, the scopes are the Provider's
    reading of [scope], and the only calls were the lookup and the scope
    parse. *)
Theorem validated_request_is_complete (req : Request) (cfg : config St)
    (params : gmap string string) (w : World St) :
  match authCodeGrant1 Parse req cfg params w with
  | (inr data, w') =>
      index params "client_id" ≠ "" ∧
      ClientInfo (provider cfg) (index params "client_id") (store w)
      = (Ok (Client data), snd (ClientInfo (provider cfg) (index params "client_id") (store w))) ∧
      (∃ u, requestedURL Parse params (Client data) = Ok u ∧
            url.Scheme u = "https" ∧
            url.String_ u = url.String_ (types.RedirectURL (Client data))) ∧
      State data = index params "state" ∧ State data ≠ "" ∧
      GrantType data = index params "response_type" ∧
      (GrantType data = "code" ∨ GrantType data = "token") ∧
      index params "scope" ≠ "" ∧
      ScopesInfo (provider cfg) (index params "scope")
        (snd (ClientInfo (provider cfg) (index params "client_id") (store w)))
      = (Ok (Scopes data), store w') ∧
      Errors data = [] ∧
      callsSince w w' [CallClientInfo (index params "client_id");
                       CallScopesInfo (index params "scope")]
  | (inl _, _) => True
  end.
Proof. apply authCodeGrant1_validated. Qed.

(** [authCodeGrant1] only reads. *)
Lemma authCodeGrant1_reads_only (req : Request) (cfg : config St)
    (params : gmap string string) (w : World St) :
  ∃ l, callsSince w (snd (authCodeGrant1 Parse req cfg params w)) l ∧
       Forall (fun c => mints c = false) l.
Proof.
  unfold callsSince. run_handler.
  branches; try log_is_mint_free; exists []; by rewrite app_nil_r.
Qed.

(** X3. A request makes at most one call that mints, as its last call,
    and only as a consent submission (not a GET) from a logged-in
    resource owner whose request [authCodeGrant1] has validated:
    [GenAuthzCode] for the response type code, [GenToken] of an access
    token for the response type token, for the validated client and
    scopes. *)
Theorem mint_only_after_validation (req : Request) (cfg : config St) (w : World St) :
  ∃ l m,
    callsSince w (snd (CreateGrant Parse FormatSeconds req cfg w))
      ([CallIsUserAuthenticated] ++ l ++ m) ∧
    Forall (fun c => mints c = false) l ∧
    (m = [] ∨
     Method req ≠ "GET" ∧
     ∃ s1 data w1,
       IsUserAuthenticated (provider cfg) (store w) = (true, s1) ∧
       authCodeGrant1 Parse req cfg (collectParams req)
         {| store := s1; calls := calls w ++ [CallIsUserAuthenticated] |} = (inr data, w1) ∧
       (m = [CallGenAuthzCode (Client data) (Scopes data)] ∧
        FormValue req "response_type" = "code"
        ∨ m = [CallGenToken types.AccessToken (Scopes data) (Client data)] ∧
          FormValue req "response_type" = "token")).
Proof.
  unfold callsSince, CreateGrant, implicitGrant, bind, invoke, ret.
  destruct (IsUserAuthenticated _ _) as [[] s1] eqn:Hauth; cbn [negb].
  - pose proof (authCodeGrant1_reads_only req cfg (collectParams req)
                  {| store := s1; calls := calls w ++ [CallIsUserAuthenticated] |}) as (l & Hl & Hreads).
    pose proof (authCodeGrant1_validated req cfg (collectParams req)
                  {| store := s1; calls := calls w ++ [CallIsUserAuthenticated] |}) as Hvalid.
    unfold callsSince in Hl.
    destruct (authCodeGrant1 _ _ _ _ _) as [[sent | data] w1] eqn:Hrun;
      cbn [fst snd calls] in *.
    + exists l, []. rewrite app_nil_r, Hl, <- app_assoc. auto.
    + destruct Hvalid as (_ & _ & _ & _ & _ & Htype & Hkind & _).
      rewrite (collectParams_index _ _ vars_response_type) in *.
      destruct (String.eqb (Method req) "GET") eqn:Hget; cbn [snd calls].
      { exists l, []. rewrite app_nil_r, Hl, <- app_assoc. auto. }
      apply String.eqb_neq in Hget.
      destruct (String.eqb (FormValue req "response_type") "token") eqn:Htoken.
      * apply String.eqb_eq in Htoken.
        exists l, [CallGenToken types.AccessToken (Scopes data) (Client data)].
        destruct (GenToken _ _ _ _ _) as [[tok | err] s2]; cbn [snd calls];
          (split; [by rewrite Hl, <- !app_assoc |]); (split; [exact Hreads |]);
          right; (split; [exact Hget |]); eexists _, _, _; eauto.
      * apply String.eqb_neq in Htoken.
        assert (FormValue req "response_type" = "code") as Hcode
          by (destruct Hkind as [Hk | Hk]; rewrite Hk in Htype; congruence).
        exists l, [CallGenAuthzCode (Client data) (Scopes data)].
        destruct (GenAuthzCode _ _ _ _) as [[grantCode | err] s2]; cbn [snd calls];
          (split; [by rewrite Hl, <- !app_assoc |]); (split; [exact Hreads |]);
          right; (split; [exact Hget |]); eexists _, _, _; eauto.
  - destruct (LoginURL _ _ _) as [loginURL s2]. cbn [snd calls].
    exists [CallLoginURL (url.String_ (URL req))], []. rewrite app_nil_r, <- app_assoc.
    split; [reflexivity |]. split; [| by left].
    apply List.Forall_cons; [reflexivity | apply List.Forall_nil].
Qed.

(** X4. The pages of [CreateGrant] have status 200 and the configured
    template. An error page carries one error and nothing of the request:
    no client, no scopes, no state; its STS max age is zero. The consent
    form is given to a GET only; it has the configured STS max age and
    echoes the state and the response type of the request. Every
    redirect has status 302. *)
Theorem pages_and_redirects (req : Request) (cfg : config St) (w : World St) :
  match fst (CreateGrant Parse FormatSeconds req cfg w) with
  | HTML opts =>
      render.Status opts = StatusOK ∧
      render.Template opts = authzForm cfg ∧
      ((∃ e, render.Data opts = errorData [e] ∧ render.STSMaxAge opts = 0) ∨
       (Method req = "GET" ∧
        Errors (render.Data opts) = [] ∧
        render.STSMaxAge opts = stsMaxAge cfg ∧
        State (render.Data opts) = FormValue req "state" ∧
        GrantType (render.Data opts) = FormValue req "response_type"))
  | Redirect _ code => code = StatusFound
  end.
Proof.
  run_handler. form_values.
  branches; try reflexivity;
    (split; [reflexivity |]); (split; [reflexivity |]);
    try (left; eexists; split; reflexivity).
  all: right; repeat split; by apply String.eqb_eq.
Qed.

(** X12. [CreateGrant] looks at the method of the request, at its URL
    as a string, and at the first value of each of the five parameters
    of [vars]; two requests that agree on these are answered alike,
    whatever else their forms hold. *)
Theorem only_the_five_parameters_matter (req req' : Request) (cfg : config St) (w : World St) :
  Method req = Method req' ->
  url.String_ (URL req) = url.String_ (URL req') ->
  (∀ v, v ∈ vars -> FormValue req v = FormValue req' v) ->
  CreateGrant Parse FormatSeconds req cfg w = CreateGrant Parse FormatSeconds req' cfg w.
Proof.
  intros Hmethod Hurl Hform.
  assert (collectParams req = collectParams req') as Hparams.
  { unfold collectParams, vars. cbn [foldl].
    rewrite !(Hform _) by (unfold vars; repeat (apply elem_of_cons; (by left) || right)).
    reflexivity. }
  unfold CreateGrant, implicitGrant, authCodeGrant1. by rewrite Hmethod, Hurl, Hparams.
Qed.

(** X13. The calls of [authCodeGrant1] by the step that fails: none
    when [client_id] is missing; the client lookup alone when the lookup,
    the redirection URI, the state, the response type or a missing scope
    fails; the lookup and then the scope parse when the scope parse fails
    or the request is validated. *)
Theorem calls_by_failing_step (req : Request) (cfg : config St)
    (params : gmap string string) (w : World St) :
  callsSince w (snd (authCodeGrant1 Parse req cfg params w))
    match firstFailure Parse cfg params (store w) with
    | Some MissingClientID => []
    | Some ScopeParseError | None =>
        [CallClientInfo (index params "client_id"); CallScopesInfo (index params "scope")]
    | Some _ => [CallClientInfo (index params "client_id")]
    end.
Proof.
  unfold callsSince. run_handler.
  branches; try discriminate; rewrite <- ?app_assoc, ?app_nil_r; reflexivity.
Qed.

End EndpointFacts.

Section FallbackFacts.

Context {St : Type}.
Variable Parse : string -> result url.URL.

(** X11. [authCodeGrant1] on a map with no [redirect_uri] entry takes
    the registered URI in its place: the request cannot fail as
    unparsable or mismatched; it is answered with the invalid-redirect
    page exactly when the registered URI itself is not https, and
    otherwise every redirect goes to the registered URI and a validated
    request carries the client of the lookup. *)
Theorem registered_uri_stands_in (req : Request) (cfg : config St)
    (params : gmap string string) (w : World St) (cinfo : types.Client) (s' : St) :
  params !! "redirect_uri" = None ->
  index params "client_id" ≠ "" ->
  ClientInfo (provider cfg) (index params "client_id") (store w) = (Ok cinfo, s') ->
  (url.Scheme (types.RedirectURL cinfo) ≠ "https" ->
   fst (authCodeGrant1 Parse req cfg params w) = inl (renderErrors cfg [ErrRedirectURLInvalid])) ∧
  (url.Scheme (types.RedirectURL cinfo) = "https" ->
   match fst (authCodeGrant1 Parse req cfg params w) with
   | inl (HTML _) => False
   | inl (Redirect urlStr code) =>
       urlStr = url.String_ (types.RedirectURL cinfo) ∧ code = StatusFound
   | inr data => Client data = cinfo
   end).
Proof.
  intros Hentry Hid Hclient. run_handler.
  rewrite (eqb_false_ne _ _ Hid). cbn [fst snd store calls].
  rewrite Hclient, Hentry. cbn [fst snd store calls].
  split; intros Hscheme.
  - by rewrite (eqb_false_ne _ _ Hscheme).
  - rewrite Hscheme, !String.eqb_refl. cbn [negb].
    branches; done.
Qed.

End FallbackFacts.

(** ** Query values: reading back what was encoded *)

Lemma lookupValues_assign_eq (k : string) (vs : list string) (v : url.Values) :
  url.lookupValues k (url.assign k vs v) = vs.
Proof.
  induction v as [| [k' vs'] v IH]; cbn; [by rewrite String.eqb_refl |].
  destruct (String.eqb_spec k k') as [-> | Hne]; cbn.
  - by rewrite String.eqb_refl.
  - by destruct (String.eqb_spec k k').
Qed.

Lemma lookupValues_assign_ne (k k' : string) (vs : list string) (v : url.Values) :
  k ≠ k' -> url.lookupValues k (url.assign k' vs v) = url.lookupValues k v.
Proof.
  intros Hne. induction v as [| [k0 vs0] v IH]; cbn.
  - by destruct (String.eqb_spec k k').
  - destruct (String.eqb_spec k' k0) as [-> | Hne0]; cbn.
    + by destruct (String.eqb_spec k k0).
    + by rewrite IH.
Qed.

Lemma lookupValues_unknown (k : string) (v : url.Values) :
  k ∉ map fst v -> url.lookupValues k v = [].
Proof.
  induction v as [| [k' vs] v IH]; cbn; [done |].
  intros Hk. apply not_elem_of_cons in Hk as [Hne Hk].
  destruct (String.eqb_spec k k'); [done | by apply IH].
Qed.

Lemma assign_keys (k : string) (vs : list string) (v : url.Values) :
  map fst (url.assign k vs v) = if decide (k ∈ map fst v) then map fst v else (map fst v ++ [k])%list.
Proof.
  induction v as [| [k' vs'] v IH]; cbn.
  - destruct (decide (k ∈ [])) as [Hin | _]; [| done]. by apply elem_of_nil in Hin.
  - destruct (String.eqb_spec k k') as [-> | Hne]; cbn.
    + destruct (decide (k' ∈ k' :: map fst v)) as [_ | Hout]; [done |].
      exfalso. apply Hout, elem_of_cons. by left.
    + rewrite IH. destruct (decide (k ∈ map fst v)) as [Hin | Hout].
      * destruct (decide (k ∈ k' :: map fst v)) as [_ | Hout]; [done |].
        exfalso. apply Hout, elem_of_cons. by right.
      * destruct (decide (k ∈ k' :: map fst v)) as [[? | ?]%elem_of_cons | _]; [done .. |].
        reflexivity.
Qed.

(** A [Values] has one entry per key, and assignments keep it so. *)
Lemma assign_NoDup (k : string) (vs : list string) (v : url.Values) :
  NoDup (map fst v) -> NoDup (map fst (url.assign k vs v)).
Proof.
  intros Hv. rewrite assign_keys. case_decide; [done |].
  apply NoDup_app. split; [done |]. split; [| apply NoDup_singleton].
  intros x Hx ->%list_elem_of_singleton. contradiction.
Qed.

Lemma ParseQuery_NoDup (query : string) : NoDup (map fst (url.ParseQuery query)).
Proof.
  unfold url.ParseQuery.
  assert (∀ pieces m, NoDup (map fst m) -> NoDup (map fst (foldl url.parsePair m pieces))) as H.
  { induction pieces as [| piece pieces IH]; intros m Hm; [done |].
    cbn [foldl]. apply IH. unfold url.parsePair.
    destruct (String.eqb piece ""); [done |].
    destruct (url.split piece "=" true) as [key value].
    destruct (url.QueryUnescape key); [| done].
    destruct (url.QueryUnescape value); [| done].
    by apply assign_NoDup. }
  apply H. cbn. apply NoDup_nil_2.
Qed.

Lemma insertSorted_elem (x k : string) (l : list string) :
  x ∈ url.insertSorted k l ↔ x = k ∨ x ∈ l.
Proof.
  induction l as [| k' l IH]; cbn.
  - rewrite list_elem_of_singleton, elem_of_nil. tauto.
  - destruct (String.leb k k'); [by rewrite elem_of_cons |].
    rewrite !elem_of_cons, IH. tauto.
Qed.

Lemma insertSorted_NoDup (k : string) (l : list string) :
  k ∉ l -> NoDup l -> NoDup (url.insertSorted k l).
Proof.
  induction l as [| k' l IH]; cbn; intros Hk Hl; [apply NoDup_singleton |].
  destruct (String.leb k k'); [by apply NoDup_cons |].
  apply NoDup_cons in Hl as [Hk' Hl]. apply not_elem_of_cons in Hk as [Hne Hk].
  apply NoDup_cons. split; [| by apply IH].
  rewrite insertSorted_elem. by intros [-> | ?].
Qed.

Lemma sortStrings_elem (x : string) (l : list string) : x ∈ url.sortStrings l ↔ x ∈ l.
Proof.
  unfold url.sortStrings. induction l as [| k l IH]; cbn; [done |].
  by rewrite insertSorted_elem, IH, elem_of_cons.
Qed.

Lemma sortStrings_NoDup (l : list string) : NoDup l -> NoDup (url.sortStrings l).
Proof.
  unfold url.sortStrings. induction l as [| k l IH]; cbn; intros Hl; [done |].
  apply NoDup_cons in Hl as [Hk Hl]. apply insertSorted_NoDup; [| by apply IH].
  by rewrite (sortStrings_elem k l).
Qed.

Lemma Encode_pairs (v : url.Values) :
  url.Encode v = url.join "&" (map encodePair (pairsOf v (url.sortStrings (map fst v)))).
Proof.
  unfold url.Encode, pairsOf. f_equal.
  induction (url.sortStrings (map fst v)) as [| k keys IH]; [done |].
  cbn [flat_map]. rewrite map_app, <- IH. f_equal.
  by rewrite map_map.
Qed.

Lemma lookupValues_added (k : string) (pairs : list (string * string)) (m : url.Values) :
  url.lookupValues k (foldl (fun m kv => url.Add (fst kv) (snd kv) m) m pairs)
  = (url.lookupValues k m
     ++ map snd (List.filter (fun kv => String.eqb (fst kv) k) pairs))%list.
Proof.
  revert m. induction pairs as [| [k' x] pairs IH]; intros m; cbn [foldl List.filter map fst snd].
  - by rewrite app_nil_r.
  - rewrite IH. unfold url.Add. destruct (String.eqb_spec k' k) as [-> | Hne].
    + rewrite lookupValues_assign_eq. cbn [map snd]. by rewrite <- app_assoc.
    + by rewrite lookupValues_assign_ne.
Qed.

Lemma pairsOf_key (k : string) (v : url.Values) (keys : list string) :
  NoDup keys ->
  map snd (List.filter (fun kv => String.eqb (fst kv) k) (pairsOf v keys))
  = if decide (k ∈ keys) then url.lookupValues k v else [].
Proof.
  unfold pairsOf. induction keys as [| k' keys IH]; intros Hkeys; cbn [flat_map].
  - destruct (decide (k ∈ [])) as [Hin | _]; [| done]. by apply elem_of_nil in Hin.
  - apply NoDup_cons in Hkeys as [Hk' Hkeys].
    rewrite List.filter_app, map_app, (IH Hkeys).
    assert (∀ xs, map snd (List.filter (fun kv : string * string => String.eqb (fst kv) k)
                             (map (fun x => (k', x)) xs))
                  = if String.eqb k' k then xs else []) as Hown.
    { induction xs as [| x xs IHx]; cbn; [by destruct (String.eqb k' k) |].
      destruct (String.eqb k' k) eqn:E; cbn; rewrite IHx; by rewrite ?E. }
    rewrite Hown. destruct (String.eqb_spec k' k) as [-> | Hne].
    + destruct (decide (k ∈ keys)); [contradiction |].
      destruct (decide (k ∈ k :: keys)) as [_ | Hout]; [by rewrite app_nil_r |].
      exfalso. apply Hout, elem_of_cons. by left.
    + cbn [app]. destruct (decide (k ∈ keys)) as [Hin | Hout].
      * destruct (decide (k ∈ k' :: keys)) as [_ | Hout]; [done |].
        exfalso. apply Hout, elem_of_cons. by right.
      * destruct (decide (k ∈ k' :: keys)) as [[? | ?]%elem_of_cons | _]; congruence.
Qed.

(** [ParseQuery] reads back, key by key, the [Values] that [Encode]
    wrote. *)
Lemma ParseQuery_Encode (k : string) (v : url.Values) :
  NoDup (map fst v) ->
  url.lookupValues k (url.ParseQuery (url.Encode v)) = url.lookupValues k v.
Proof.
  intros Hv. rewrite Encode_pairs, ParseQuery_join, lookupValues_added.
  cbn [url.lookupValues app].
  rewrite pairsOf_key by by apply sortStrings_NoDup.
  case_decide as Hk; [done |]. symmetry. apply lookupValues_unknown.
  by rewrite <- (sortStrings_elem k).
Qed.

Section CodeFlow.

Context {St : Type}.
Variable Parse : string -> result url.URL.
Variable FormatSeconds : Z -> string.

(** X5. A consent submission for the response type code that is
    validated, and for which [GenAuthzCode] gives a code, is redirected
    (302) to the registered URI with its query rewritten: read back, the
    query holds the code and the state of the request, one value each,
    and every other parameter of the registered URI as it was. *)
Theorem code_redirect_carries_code_and_state (req : Request) (cfg : config St) (w w1 : World St)
    (s1 s2 : St) (data : AuthzData) (grantCode : types.GrantCode) :
  IsUserAuthenticated (provider cfg) (store w) = (true, s1) ->
  authCodeGrant1 Parse req cfg (collectParams req)
    {| store := s1; calls := calls w ++ [CallIsUserAuthenticated] |} = (inr data, w1) ->
  Method req ≠ "GET" ->
  FormValue req "response_type" ≠ "token" ->
  GenAuthzCode (provider cfg) (Client data) (Scopes data) (store w1) = (Ok grantCode, s2) ->
  ∃ rawQuery,
    fst (CreateGrant Parse FormatSeconds req cfg w)
    = Redirect (url.String_ (url.setRawQuery rawQuery (types.RedirectURL (Client data))))
               StatusFound ∧
    url.lookupValues "code" (url.ParseQuery rawQuery) = [types.Code grantCode] ∧
    url.lookupValues "state" (url.ParseQuery rawQuery) = [FormValue req "state"] ∧
    ∀ k, k ≠ "code" -> k ≠ "state" ->
      url.lookupValues k (url.ParseQuery rawQuery)
      = url.lookupValues k (url.Query (types.RedirectURL (Client data))).
Proof.
  intros Hauth Hvalid Hmethod Htype Hcode.
  pose proof (authCodeGrant1_validated Parse req cfg (collectParams req)
                {| store := s1; calls := calls w ++ [CallIsUserAuthenticated] |}) as Hdata.
  rewrite Hvalid in Hdata. destruct Hdata as (_ & _ & _ & Hstate & _).
  rewrite (collectParams_index _ _ vars_state) in Hstate.
  unfold CreateGrant, bind, invoke, ret. rewrite Hauth. cbn [negb].
  rewrite Hvalid, (eqb_false_ne _ _ Hmethod).
  rewrite (collectParams_index _ _ vars_response_type), (eqb_false_ne _ _ Htype), Hcode.
  cbn [fst]. eexists. split; [reflexivity |].
  assert (NoDup (map fst (url.Set_ "state" (State data)
                            (url.Set_ "code" (types.Code grantCode)
                               (url.Query (types.RedirectURL (Client data))))))) as Hkeys
    by (unfold url.Set_, url.Query; do 2 apply assign_NoDup; apply ParseQuery_NoDup).
  rewrite !(ParseQuery_Encode _ _ Hkeys). unfold url.Set_.
  split; [| split].
  - by rewrite lookupValues_assign_ne, lookupValues_assign_eq.
  - by rewrite lookupValues_assign_eq, Hstate.
  - intros k Hc Hs. rewrite (ParseQuery_Encode _ _ Hkeys). unfold url.Set_.
    by rewrite !lookupValues_assign_ne.
Qed.

End CodeFlow.

(** ** The dispatcher *)

Lemma prefix_cons (x y : ascii) (a b : string) :
  String.prefix (String x a) (String y b) = Ascii.eqb x y && String.prefix a b.
Proof.
  cbn. destruct (ascii_dec x y) as [-> | Hne].
  - by rewrite Ascii.eqb_refl.
  - apply Ascii.eqb_neq in Hne. by rewrite Hne.
Qed.

(** Two prefixes of one path: one is a prefix of the other. *)
Lemma prefixes_comparable (a b p : string) :
  String.prefix a p = true -> String.prefix b p = true ->
  String.prefix a b = true ∨ String.prefix b a = true.
Proof.
  revert b p. induction a as [| x a IH]; intros b p Ha Hb; [left; by destruct b |].
  destruct b as [| y b]; [by right |].
  destruct p as [| z p]; [done |].
  rewrite prefix_cons in Ha, Hb.
  apply andb_prop in Ha as [Hx Ha]. apply andb_prop in Hb as [Hy Hb].
  apply Ascii.eqb_eq in Hx, Hy. subst.
  rewrite !prefix_cons, !Ascii.eqb_refl. cbn [andb]. by eapply IH.
Qed.

Section DispatcherFacts.

Context {St : Type}.
Variable Parse : string -> result url.URL.
Variable FormatSeconds : Z -> string.
Variable parseTemplate : string -> result string.
Variable TokenHandlers : gmap string (HandlerFn St).

(** No endpoint of [entries] is a prefix of the path: nothing happens. *)
Lemma dispatch_none (entries : list (string * gmap string (HandlerFn St))) (req : Request)
    (cfg : config St) (next : Request -> M St Served) (w : World St) :
  (∀ p h, (p, h) ∈ entries -> String.prefix p (url.Path (URL req)) = false) ->
  dispatch entries req cfg next w = (Silent, w).
Proof.
  induction entries as [| [p h] entries IH]; intros Hno; [reflexivity |].
  cbn [dispatch]. rewrite (Hno p h) by (apply elem_of_cons; by left).
  apply IH. intros p' h' Hin. apply (Hno p' h'), elem_of_cons. by right.
Qed.

(** One endpoint of [entries] is a prefix of the path: its handlers
    decide, wherever it stands. *)
Lemma dispatch_only (entries : list (string * gmap string (HandlerFn St))) (req : Request)
    (cfg : config St) (next : Request -> M St Served) (w : World St)
    (p0 : string) (h0 : gmap string (HandlerFn St)) :
  (p0, h0) ∈ entries ->
  String.prefix p0 (url.Path (URL req)) = true ->
  (∀ p h, (p, h) ∈ entries -> String.prefix p (url.Path (URL req)) = true -> p = p0 ∧ h = h0) ->
  dispatch entries req cfg next w
  = match h0 !! Method req with
    | Some handlerFn => handlerFn req cfg next w
    | None => (Written StatusMethodNotAllowed "Method Not Allowed", w)
    end.
Proof.
  induction entries as [| [p h] entries IH]; intros Hin Hp0 Honly.
  - by apply elem_of_nil in Hin.
  - cbn [dispatch]. destruct (String.prefix p (url.Path (URL req))) eqn:Hp.
    + destruct (Honly p h) as [-> ->]; [apply elem_of_cons; by left | done |].
      by destruct (h0 !! Method req).
    + apply elem_of_cons in Hin as [[= -> ->] | Hin]; [congruence |].
      apply IH; [done .. |]. intros p' h' Hin'. apply Honly, elem_of_cons. by right.
Qed.

Lemma registry_entry (cfg : config St) (entries : list (string * gmap string (HandlerFn St)))
    (p : string) (h : gmap string (HandlerFn St)) :
  entries ≡ₚ map_to_list (registry Parse FormatSeconds TokenHandlers cfg) ->
  (p, h) ∈ entries ↔
  (p = tokenEndpoint cfg ∧ h = TokenHandlers) ∨
  (p = authzEndpoint cfg ∧ p ≠ tokenEndpoint cfg ∧ h = AuthzHandlers Parse FormatSeconds).
Proof.
  intros ->. rewrite elem_of_map_to_list. unfold registry.
  rewrite lookup_insert. case_decide as Ht.
  - split; [intros [= <-]; by left | intros [[_ ->] | [_ [Hne _]]]; congruence].
  - rewrite lookup_insert. case_decide as Ha.
    + split; [intros [= <-]; right; by subst | intros [[-> _] | [_ [_ ->]]]; congruence].
    + rewrite lookup_empty. split; [done | intros [[-> _] | [-> _]]; congruence].
Qed.

Lemma AuthzHandlers_lookup (m : string) :
  AuthzHandlers Parse FormatSeconds !! m
  = if String.eqb m "DELETE" then Some (RevokeGrant (St := St))
    else if String.eqb m "POST" then Some (createGrant Parse FormatSeconds)
    else if String.eqb m "GET" then Some (createGrant Parse FormatSeconds)
    else None.
Proof.
  unfold AuthzHandlers. rewrite !lookup_insert, lookup_empty.
  destruct (String.eqb_spec m "DELETE") as [-> | ?]; [by rewrite decide_True |].
  rewrite decide_False by done.
  destruct (String.eqb_spec m "POST") as [-> | ?]; [by rewrite decide_True |].
  rewrite decide_False by done.
  destruct (String.eqb_spec m "GET") as [-> | ?]; [by rewrite decide_True |].
  by rewrite decide_False.
Qed.

(** Routed to the authorization endpoint. *)
Lemma routed_to_authorization (cfg : config St) (next : Request -> M St Served)
    (req : Request) (w : World St) (out : Served * World St) :
  String.prefix (authzEndpoint cfg) (url.Path (URL req)) = true ->
  String.prefix (tokenEndpoint cfg) (url.Path (URL req)) = false ->
  serves Parse FormatSeconds TokenHandlers cfg next req w out ->
  out = authzOutcome Parse FormatSeconds req cfg w.
Proof.
  intros Hauthz Htoken (entries & Hperm & <-).
  assert (authzEndpoint cfg ≠ tokenEndpoint cfg) as Hne by congruence.
  rewrite (dispatch_only entries req cfg next w (authzEndpoint cfg)
             (AuthzHandlers Parse FormatSeconds)).
  - rewrite AuthzHandlers_lookup. unfold authzOutcome, createGrant, RevokeGrant, bind, ret.
    destruct (String.eqb_spec (Method req) "DELETE") as [Hm | _].
    + rewrite Hm. reflexivity.
    + destruct (String.eqb (Method req) "POST"); [by rewrite orb_true_r |].
      rewrite orb_false_r. by destruct (String.eqb (Method req) "GET").
  - apply (registry_entry cfg entries _ _ Hperm). by right.
  - done.
  - intros p h [[-> _] | (-> & _ & ->)]%(registry_entry cfg entries _ _ Hperm) Hp; [congruence | done].
Qed.

(** Routed nowhere. *)
Lemma routed_nowhere (cfg : config St) (next : Request -> M St Served)
    (req : Request) (w : World St) (out : Served * World St) :
  String.prefix (authzEndpoint cfg) (url.Path (URL req)) = false ->
  String.prefix (tokenEndpoint cfg) (url.Path (URL req)) = false ->
  serves Parse FormatSeconds TokenHandlers cfg next req w out ->
  out = (Silent, w).
Proof.
  intros Hauthz Htoken (entries & Hperm & <-). apply dispatch_none.
  by intros p h [[-> _] | (-> & _ & _)]%(registry_entry cfg entries _ _ Hperm).
Qed.

(** X6. A request whose path begins with the authorization endpoint, and
    not with the token endpoint, is served in one way whatever the order
    of the registry: GET and POST by [CreateGrant]; DELETE by
    [RevokeGrant], which writes nothing and calls nothing; any other
    method by 405 and the body Method Not Allowed, with no call to the
    Provider. The next handler is not run. *)
Theorem authorization_endpoint_routing (cfg : config St) (next : Request -> M St Served)
    (req : Request) (w : World St) (out : Served * World St) :
  String.prefix (authzEndpoint cfg) (url.Path (URL req)) = true ->
  String.prefix (tokenEndpoint cfg) (url.Path (URL req)) = false ->
  serves Parse FormatSeconds TokenHandlers cfg next req w out ->
  out = authzOutcome Parse FormatSeconds req cfg w.
Proof. apply routed_to_authorization. Qed.

(** X7. A request whose path begins with neither endpoint gets nothing:
    no status, no body, no call to the Provider, and the next handler is
    not run. The revocation endpoint is not in the registry, so this is
    what a request to it gets. *)
Theorem unrouted_request_is_dropped (cfg : config St) (next : Request -> M St Served)
    (req : Request) (w : World St) (out : Served * World St) :
  String.prefix (authzEndpoint cfg) (url.Path (URL req)) = false ->
  String.prefix (tokenEndpoint cfg) (url.Path (URL req)) = false ->
  serves Parse FormatSeconds TokenHandlers cfg next req w out ->
  out = (Silent, w).
Proof. apply routed_nowhere. Qed.

(** Some order there always is. *)
Lemma serves_some (cfg : config St) (next : Request -> M St Served) (req : Request)
    (w : World St) :
  ∃ out, serves Parse FormatSeconds TokenHandlers cfg next req w out.
Proof. eexists. eexists. split; reflexivity. Qed.

(** X8. When neither endpoint is a prefix of the other, as with the
    default endpoints, what a request gets does not depend on the order
    in which Go ranges over the registry. *)
Theorem routing_is_deterministic (cfg : config St) (next : Request -> M St Served)
    (req : Request) (w : World St) (out1 out2 : Served * World St) :
  String.prefix (authzEndpoint cfg) (tokenEndpoint cfg) = false ->
  String.prefix (tokenEndpoint cfg) (authzEndpoint cfg) = false ->
  serves Parse FormatSeconds TokenHandlers cfg next req w out1 ->
  serves Parse FormatSeconds TokenHandlers cfg next req w out2 ->
  out1 = out2.
Proof.
  intros Hat Hta H1 H2.
  destruct (String.prefix (authzEndpoint cfg) (url.Path (URL req))) eqn:Ha,
           (String.prefix (tokenEndpoint cfg) (url.Path (URL req))) eqn:Ht.
  - destruct (prefixes_comparable _ _ _ Ha Ht); congruence.
  - by rewrite (routed_to_authorization cfg next req w out1),
               (routed_to_authorization cfg next req w out2).
  - destruct H1 as (e1 & Hp1 & <-), H2 as (e2 & Hp2 & <-).
    rewrite (dispatch_only e1 req cfg next w (tokenEndpoint cfg) TokenHandlers),
            (dispatch_only e2 req cfg next w (tokenEndpoint cfg) TokenHandlers); try done.
    + apply (registry_entry cfg e2 _ _ Hp2). by left.
    + intros p h [[-> ->] | (-> & _ & _)]%(registry_entry cfg e2 _ _ Hp2) Hp; [done | congruence].
    + apply (registry_entry cfg e1 _ _ Hp1). by left.
    + intros p h [[-> ->] | (-> & _ & _)]%(registry_entry cfg e1 _ _ Hp1) Hp; [done | congruence].
  - by rewrite (routed_nowhere cfg next req w out1),
               (routed_nowhere cfg next req w out2).
Qed.

Lemma applyOptions_keeps {A} (proj : settings St -> A) (opts : list (option_ St))
    (c c' : settings St) :
  Forall (keeps proj) opts -> applyOptions opts c = Ok c' -> proj c' = proj c.
Proof.
  intros Hkeeps. revert c. induction Hkeeps as [| opt opts Hopt _ IH]; intros c; cbn.
  - by intros [= ->].
  - destruct (opt c) as [c1 |] eqn:Hc; [| done]. intros H%IH. rewrite H. by apply Hopt.
Qed.

(** X9. When [Handler] starts, every endpoint and the STS max age that
    the options left alone has its default (/oauth2/authzs,
    /oauth2/tokens, /oauth2/revoke, one year), and the consent form and
    the provider were each set by some option: options that all leave
    the form alone, or all leave the provider alone, stop the process. *)
Theorem started_handler_configuration (opts : list (option_ St)) (cfg : config St) :
  configure opts = Ok cfg ->
  (Forall (keeps authz) opts -> authzEndpoint cfg = "/oauth2/authzs") ∧
  (Forall (keeps token) opts -> tokenEndpoint cfg = "/oauth2/tokens") ∧
  (Forall (keeps revoke) opts -> revokeEndpoint cfg = "/oauth2/revoke") ∧
  (Forall (keeps maxAge) opts -> stsMaxAge cfg = 31536000 * 10 ^ 9) ∧
  ¬ Forall (keeps form) opts ∧
  ¬ Forall (keeps impl) opts.
Proof.
  unfold configure. destruct (applyOptions opts defaults) as [c |] eqn:Hc; [| done].
  destruct (form c) as [tpl |] eqn:Hform; [| done].
  destruct (impl c) as [p |] eqn:Himpl; [| done].
  intros [= <-]. cbn [authzEndpoint tokenEndpoint revokeEndpoint stsMaxAge].
  repeat split.
  - intros H. by rewrite (applyOptions_keeps authz opts _ _ H Hc).
  - intros H. by rewrite (applyOptions_keeps token opts _ _ H Hc).
  - intros H. by rewrite (applyOptions_keeps revoke opts _ _ H Hc).
  - intros H. by rewrite (applyOptions_keeps maxAge opts _ _ H Hc).
  - intros H. by rewrite (applyOptions_keeps form opts _ _ H Hc) in Hform.
  - intros H. by rewrite (applyOptions_keeps impl opts _ _ H Hc) in Himpl.
Qed.

(** X10. The five options of provider.go change the field they are
    named after and no other; none of them sets the provider, so a
    handler built from them alone does not start. *)
Theorem setters_leave_provider_unset (next : Request -> M St Served) (opts : list (option_ St)) :
  Forall (fun opt =>
            (∃ e, opt = SetTokenEndpoint e) ∨ (∃ e, opt = SetAuthzEndpoint e) ∨
            (∃ e, opt = SetRevokeEndpoint e) ∨ (∃ d, opt = SetSTSMaxAge d) ∨
            (∃ text, opt = SetAuthzForm parseTemplate text)) opts ->
  ∃ e, Handler Parse FormatSeconds TokenHandlers next opts = Err e.
Proof.
  intros Hopts. unfold Handler, configure.
  destruct (applyOptions opts defaults) as [c |] eqn:Hc; [| by eexists].
  assert (impl c = None) as Himpl.
  { change (impl c = impl defaults).
    apply (applyOptions_keeps impl opts defaults c); [| exact Hc].
    eapply Forall_impl; [exact Hopts |].
    intros opt [[e ->] | [[e ->] | [[e ->] | [[d ->] | [text ->]]]]] c0 c'; cbn;
      try (by intros [= <-]).
    unfold SetAuthzForm. destruct (parseTemplate text); [by intros [= <-] | done]. }
  rewrite Himpl. destruct (form c); by eexists.
Qed.

End DispatcherFacts.

(** ** The added facts, on the in-memory provider *)

Section MoreScenarios.

Import TestProvider TestServer.

Lemma unauthenticated_goes_to_login_witness :
  let req := request "POST" (consent "code" "https://example.com/cb") in
  IsUserAuthenticated (provider cfg) (store loggedOut) = (false, store loggedOut) ∧
  run req loggedOut
  = (Redirect "https://example.com/login?referer=https%3A%2F%2Fexample.com%2Foauth2%2Fauthzs" 302,
     {| store := store loggedOut;
        calls := [CallIsUserAuthenticated; CallLoginURL "https://example.com/oauth2/authzs"] |}).
Proof.
  intros req.
  assert (IsUserAuthenticated (provider cfg) (store loggedOut) = (false, store loggedOut))
    as Hauth by reflexivity.
  split; [exact Hauth |].
  exact (unauthenticated_goes_to_login url.Parse wholeSeconds req cfg loggedOut _ Hauth).
Defined.

Lemma code_redirect_carries_code_and_state_witness :
  let req := request "POST" (consent "code" "https://example.com/cb") in
  let w0 := {| store := store loggedIn; calls := [CallIsUserAuthenticated] |} in
  let w1 := {| store := store loggedIn;
               calls := [CallIsUserAuthenticated; CallClientInfo "test_client_id";
                         CallScopesInfo "read write identity"] |} in
  let grantCode := {| types.Code := "code" |} in
  IsUserAuthenticated (provider cfg) (store loggedIn) = (true, store loggedIn) ∧
  authCodeGrant1 url.Parse req cfg (collectParams req) w0 = (inr (validated "code"), w1) ∧
  Method req ≠ "GET" ∧
  FormValue req "response_type" ≠ "token" ∧
  GenAuthzCode (provider cfg) client scopes (store w1)
  = (Ok grantCode, {| session := true; codes := ["code"]; tokens := [] |}) ∧
  ∃ rawQuery,
    fst (run req loggedIn)
    = Redirect (url.String_ (url.setRawQuery rawQuery registered)) StatusFound ∧
    url.lookupValues "code" (url.ParseQuery rawQuery) = ["code"] ∧
    url.lookupValues "state" (url.ParseQuery rawQuery) = ["state-test"] ∧
    ∀ k, k ≠ "code" -> k ≠ "state" ->
      url.lookupValues k (url.ParseQuery rawQuery) = url.lookupValues k (url.Query registered).
Proof.
  intros req w0 w1 grantCode.
  assert (IsUserAuthenticated (provider cfg) (store loggedIn) = (true, store loggedIn))
    as Hauth by reflexivity.
  assert (authCodeGrant1 url.Parse req cfg (collectParams req) w0 = (inr (validated "code"), w1))
    as Hvalid by (vm_compute; reflexivity).
  assert (Method req ≠ "GET") as Hmethod by discriminate.
  assert (FormValue req "response_type" ≠ "token") as Htype by discriminate.
  assert (GenAuthzCode (provider cfg) client scopes (store w1)
          = (Ok grantCode, {| session := true; codes := ["code"]; tokens := [] |}))
    as Hcode by reflexivity.
  repeat (split; [assumption |]).
  exact (code_redirect_carries_code_and_state url.Parse wholeSeconds req cfg loggedIn w1 _ _
           (validated "code") grantCode Hauth Hvalid Hmethod Htype Hcode).
Defined.

Lemma registered_uri_stands_in_witness :
  let req := request "GET" withoutRedirectURI in
  paramsWithoutRedirectURI !! "redirect_uri" = None ∧
  index paramsWithoutRedirectURI "client_id" ≠ "" ∧
  ClientInfo (provider cfg) (index paramsWithoutRedirectURI "client_id") (store loggedIn)
  = (Ok client, store loggedIn) ∧
  url.Scheme (types.RedirectURL client) = "https" ∧
  match fst (authCodeGrant1 url.Parse req cfg paramsWithoutRedirectURI loggedIn) with
  | inl (HTML _) => False
  | inl (Redirect urlStr code) =>
      urlStr = url.String_ (types.RedirectURL client) ∧ code = StatusFound
  | inr data => Client data = client
  end.
Proof.
  intros req.
  assert (paramsWithoutRedirectURI !! "redirect_uri" = None) as Hentry by (vm_compute; reflexivity).
  assert (index paramsWithoutRedirectURI "client_id" = "test_client_id") as Hcid
    by (vm_compute; reflexivity).
  assert (index paramsWithoutRedirectURI "client_id" ≠ "") as Hid by (rewrite Hcid; discriminate).
  assert (ClientInfo (provider cfg) (index paramsWithoutRedirectURI "client_id") (store loggedIn)
          = (Ok client, store loggedIn)) as Hclient by (rewrite Hcid; reflexivity).
  repeat (split; [assumption || reflexivity |]).
  exact (proj2 (registered_uri_stands_in url.Parse req cfg paramsWithoutRedirectURI loggedIn
                  client _ Hentry Hid Hclient) eq_refl).
Defined.

Lemma only_the_five_parameters_matter_witness :
  let req := request "POST" (consent "code" "https://example.com/cb") in
  let req' := request "POST" crowded in
  Method req = Method req' ∧
  url.String_ (URL req) = url.String_ (URL req') ∧
  (∀ v, v ∈ vars -> FormValue req v = FormValue req' v) ∧
  run req loggedIn = run req' loggedIn.
Proof.
  intros req req'.
  assert (∀ v, v ∈ vars -> FormValue req v = FormValue req' v) as Hform.
  { intros v Hv. unfold vars in Hv.
    repeat (apply elem_of_cons in Hv as [-> | Hv]; [reflexivity |]).
    by apply elem_of_nil in Hv. }
  split; [reflexivity |]. split; [reflexivity |]. split; [exact Hform |].
  exact (only_the_five_parameters_matter url.Parse wholeSeconds req req' cfg loggedIn
           eq_refl eq_refl Hform).
Defined.

(** The handler of the scenarios: the default endpoints. *)
Lemma server_starts :
  configure opts
  = Ok {| authzEndpoint := "/oauth2/authzs"; tokenEndpoint := "/oauth2/tokens";
          revokeEndpoint := "/oauth2/revoke"; stsMaxAge := 31536000 * 10 ^ 9;
          authzForm := "authzform"; provider := NewProvider |}.
Proof. reflexivity. Defined.

Lemma serves_in_map_order (req : Request) (w : World Store) :
  serves url.Parse wholeSeconds noTokenHandlers cfg notFound req w
    (dispatch (map_to_list (registry url.Parse wholeSeconds noTokenHandlers cfg))
       req cfg notFound w).
Proof. eexists. split; reflexivity. Defined.

Lemma authorization_endpoint_routing_witness :
  let req := at_ "DELETE" "/oauth2/authzs/code" in
  let out := dispatch (map_to_list (registry url.Parse wholeSeconds noTokenHandlers cfg))
               req cfg notFound loggedIn in
  String.prefix (authzEndpoint cfg) (url.Path (URL req)) = true ∧
  String.prefix (tokenEndpoint cfg) (url.Path (URL req)) = false ∧
  serves url.Parse wholeSeconds noTokenHandlers cfg notFound req loggedIn out ∧
  out = (Silent, loggedIn).
Proof.
  intros req out.
  assert (String.prefix (authzEndpoint cfg) (url.Path (URL req)) = true) as Ha by reflexivity.
  assert (String.prefix (tokenEndpoint cfg) (url.Path (URL req)) = false) as Ht by reflexivity.
  pose proof (serves_in_map_order req loggedIn) as Hserves.
  repeat (split; [assumption |]).
  exact (authorization_endpoint_routing url.Parse wholeSeconds noTokenHandlers cfg notFound req
           loggedIn out Ha Ht Hserves).
Defined.

Lemma unrouted_request_is_dropped_witness :
  let req := at_ "POST" "/oauth2/revoke" in
  let out := dispatch (map_to_list (registry url.Parse wholeSeconds noTokenHandlers cfg))
               req cfg notFound loggedIn in
  String.prefix (authzEndpoint cfg) (url.Path (URL req)) = false ∧
  String.prefix (tokenEndpoint cfg) (url.Path (URL req)) = false ∧
  serves url.Parse wholeSeconds noTokenHandlers cfg notFound req loggedIn out ∧
  out = (Silent, loggedIn).
Proof.
  intros req out.
  assert (String.prefix (authzEndpoint cfg) (url.Path (URL req)) = false) as Ha by reflexivity.
  assert (String.prefix (tokenEndpoint cfg) (url.Path (URL req)) = false) as Ht by reflexivity.
  pose proof (serves_in_map_order req loggedIn) as Hserves.
  repeat (split; [assumption |]).
  exact (unrouted_request_is_dropped url.Parse wholeSeconds noTokenHandlers cfg notFound req
           loggedIn out Ha Ht Hserves).
Defined.

Lemma routing_is_deterministic_witness :
  let req := at_ "PUT" "/oauth2/tokens" in
  let out := dispatch (map_to_list (registry url.Parse wholeSeconds noTokenHandlers cfg))
               req cfg notFound loggedIn in
  String.prefix (authzEndpoint cfg) (tokenEndpoint cfg) = false ∧
  String.prefix (tokenEndpoint cfg) (authzEndpoint cfg) = false ∧
  serves url.Parse wholeSeconds noTokenHandlers cfg notFound req loggedIn out ∧
  ∀ out', serves url.Parse wholeSeconds noTokenHandlers cfg notFound req loggedIn out' ->
          out' = out.
Proof.
  intros req out.
  assert (String.prefix (authzEndpoint cfg) (tokenEndpoint cfg) = false) as Hat by reflexivity.
  assert (String.prefix (tokenEndpoint cfg) (authzEndpoint cfg) = false) as Hta by reflexivity.
  pose proof (serves_in_map_order req loggedIn) as Hserves.
  repeat (split; [assumption |]).
  intros out' Hserves'.
  exact (routing_is_deterministic url.Parse wholeSeconds noTokenHandlers cfg notFound req
           loggedIn out' out Hat Hta Hserves' Hserves).
Defined.

Lemma installProvider_keeps {A} (proj : settings Store -> A) (p : Provider Store) :
  (∀ c, proj {| authz := authz c; token := token c; revoke := revoke c; maxAge := maxAge c;
                form := form c; impl := Some p |} = proj c) ->
  keeps proj (installProvider p).
Proof. intros H c c' [= <-]. apply H. Defined.

Lemma started_handler_configuration_witness :
  let started := {| authzEndpoint := "/oauth2/authzs"; tokenEndpoint := "/oauth2/tokens";
                    revokeEndpoint := "/oauth2/revoke"; stsMaxAge := 31536000 * 10 ^ 9;
                    authzForm := "authzform"; provider := NewProvider |} in
  configure opts = Ok started ∧
  Forall (keeps authz) opts ∧
  authzEndpoint started = "/oauth2/authzs" ∧
  ¬ Forall (keeps impl) opts.
Proof.
  intros started.
  pose proof (started_handler_configuration opts started server_starts)
    as (Hauthz & _ & _ & _ & _ & Himpl).
  assert (Forall (keeps authz) opts) as Hkeeps.
  { repeat apply List.Forall_cons; [| | apply List.Forall_nil]; by intros c c' [= <-]. }
  split; [reflexivity |]. split; [exact Hkeeps |]. split; [exact (Hauthz Hkeeps) | exact Himpl].
Defined.

Lemma setters_leave_provider_unset_witness :
  let only := [SetAuthzForm anyTemplate "authzform"; SetSTSMaxAge 0;
               SetAuthzEndpoint "/authorize"] : list (option_ Store) in
  Handler url.Parse wholeSeconds noTokenHandlers notFound only
  = Err "An implementation of the oauth2.Provider interface is expected" ∧
  ∃ e, Handler url.Parse wholeSeconds noTokenHandlers notFound only = Err e.
Proof.
  intros only. split; [reflexivity |].
  apply (setters_leave_provider_unset url.Parse wholeSeconds anyTemplate noTokenHandlers).
  repeat apply List.Forall_cons; [| | | apply List.Forall_nil]; eauto 10.
Defined.

(** When one endpoint is a prefix of the other, the order of the range
    shows: a GET for /oauth2/tokens, with the authorization endpoint at
    /oauth2, is a login redirect in one order and a 405 in the other. *)
Example routing_depends_on_order :
  let cfg' := {| authzEndpoint := "/oauth2"; tokenEndpoint := "/oauth2/tokens";
                 revokeEndpoint := "/oauth2/revoke"; stsMaxAge := 0;
                 authzForm := "authzform"; provider := NewProvider |} in
  let req := at_ "GET" "/oauth2/tokens" in
  let authzs := AuthzHandlers url.Parse wholeSeconds in
  fst (dispatch [("/oauth2", authzs); ("/oauth2/tokens", noTokenHandlers)] req cfg' notFound loggedOut)
  = Sent (Redirect "https://example.com/login?referer=https%3A%2F%2Fexample.com%2Foauth2%2Ftokens" 302) ∧
  fst (dispatch [("/oauth2/tokens", noTokenHandlers); ("/oauth2", authzs)] req cfg' notFound loggedOut)
  = Written 405 "Method Not Allowed" ∧
  [("/oauth2", authzs); ("/oauth2/tokens", noTokenHandlers)]
  ≡ₚ map_to_list (registry url.Parse wholeSeconds noTokenHandlers cfg') ∧
  [("/oauth2/tokens", noTokenHandlers); ("/oauth2", authzs)]
  ≡ₚ map_to_list (registry url.Parse wholeSeconds noTokenHandlers cfg').
Proof.
  intros cfg' req authzs.
  assert ([("/oauth2/tokens", noTokenHandlers); ("/oauth2", authzs)]
          ≡ₚ map_to_list (registry url.Parse wholeSeconds noTokenHandlers cfg')) as Hperm.
  { unfold registry. cbn [tokenEndpoint authzEndpoint cfg'].
    rewrite map_to_list_insert by (by rewrite lookup_insert_ne, lookup_empty).
    by rewrite map_to_list_insert, map_to_list_empty by apply lookup_empty. }
  split; [vm_compute; reflexivity |]. split; [vm_compute; reflexivity |].
  split; [| exact Hperm]. rewrite <- Hperm. apply perm_swap.
Qed.

End MoreScenarios.
